(** * Multi-agent workflow: message protocol, agents and orchestrator

  A shallow embedding of [messages.py], [agents.py] and [workflow.py].

  Conventions.
  - Python [str] is [string]; a character is an [ascii].
  - Python [int] is [Z].
  - A [Dict[str, Any]] is a [gmap string PyVal].
  - Mutable objects that the program shares by reference (the message
    history of an agent, the interaction log of a workflow) live in a
    store addressed by [loc]; the records that point at them hold the
    address.
  - The text-generation client is an oracle: its reply may depend on
    every exchange made so far and on the request.  A failure of the
    client is a Python exception, which no function of the repository
    catches.
  - [print] calls and colour codes are not modelled. *)

From Stdlib Require Import ZArith String Ascii List Lia.
From stdpp Require Import gmap strings list.
Import ListNotations.

Local Open Scope Z_scope.

(** ** Python built-ins used by the sources *)

Module Py.

(** Values stored under [Any] in the dictionaries of a message. *)
Inductive PyVal :=
| PyNone
| PyBool (b : bool)
| PyInt (z : Z)
| PyStr (s : string).

Definition nl : string := String "010"%char EmptyString.
Definition dquote : string := String "034"%char EmptyString.

(** [len(s)] *)
Definition len (s : string) : Z := Z.of_nat (String.length s).

(** [s[:n]] for a literal [n >= 0]. *)
Definition str_slice_to (n : nat) (s : string) : string :=
  String.substring 0 n s.

(** [needle in s] on strings. *)
Fixpoint str_in (needle s : string) : bool :=
  String.prefix needle s
  || match s with
     | EmptyString => false
     | String _ s' => str_in needle s'
     end.

(** [l[start:]]: a negative [start] counts from the end and is clamped
    at the beginning of the list. *)
Definition slice_from {A} (start : Z) (l : list A) : list A :=
  if start <? 0
  then skipn (Z.to_nat (Z.max (Z.of_nat (List.length l) + start) 0)) l
  else skipn (Z.to_nat start) l.

End Py.

(** ** messages.py *)

Module Messages.
Import Py.

Inductive MessageType :=
| QUERY
| RESPONSE
| CRITIQUE
| CONTEXT_UPDATE
| ERROR.

Record AgentMessage := mkAgentMessage {
  sender : string;
  recipient : string;
  message_type : MessageType;
  content : string;
  context : gmap string PyVal;
  metadata : gmap string PyVal;
  timestamp : Z
}.

(** [f"[{self.sender} -> {self.recipient}]: {self.content}"] *)
Definition to_prompt_context (self : AgentMessage) : string :=
  "[" +:+ sender self +:+ " -> " +:+ recipient self +:+ "]: " +:+ content self.

Record MessageHistory := mkMessageHistory {
  messages : list AgentMessage
}.

Definition MessageHistory_init : MessageHistory :=
  {| messages := [] |}.

Definition add_message (self : MessageHistory) (message : AgentMessage)
  : MessageHistory :=
  {| messages := messages self ++ [message] |}.

(** [self.messages[-n:] if self.messages else []] *)
Definition get_recent_messages (self : MessageHistory) (n : Z)
  : list AgentMessage :=
  match messages self with
  | [] => []
  | _ => slice_from (- n) (messages self)
  end.

Definition get_conversation_context (self : MessageHistory) : string :=
  match messages self with
  | [] => "No previous conversation."
  | _ =>
      fold_left
        (fun context msg => context +:+ (to_prompt_context msg +:+ nl))
        (slice_from (-10) (messages self))
        ("Previous conversation:" +:+ nl)
  end.

Definition clear (self : MessageHistory) : MessageHistory :=
  {| messages := [] |}.

(** The history reached from an empty one by appending [ms] in order. *)
Definition appended (ms : list AgentMessage) : MessageHistory :=
  fold_left add_message ms MessageHistory_init.

(** The lines of a transcript, each one closed by a newline. *)
Definition transcript_lines (ms : list AgentMessage) : string :=
  fold_right (fun msg rest => to_prompt_context msg +:+ nl +:+ rest) "" ms.

(** The context view as the specification words it: the rendered lines
    of the last ten messages joined with newlines, or the sentinel. *)
Definition spec_context_view (self : MessageHistory) : string :=
  match messages self with
  | [] => "No previous conversation."
  | _ => String.concat nl (map to_prompt_context (slice_from (-10) (messages self)))
  end.

End Messages.

(** ** The store, the client and the effects of a call *)

Module Runtime.
Import Py Messages.

Abbreviation loc := positive (only parsing).

(** The ways in which the text-generation client can fail. *)
Inductive GenerationError :=
| RateLimitError
| TimeoutError
| InvalidResponseError.

Inductive Reply :=
| Content (text : string)
| Fails (e : GenerationError).

(** The dictionary returned by [CriticAgent.critique]. *)
Module CritiqueResult.
Record t := mk {
  score : Z;
  critique : string;
  issues : list string;
  improvements : list string
}.
End CritiqueResult.

(** An entry of the interaction log: [{"agent": ..., "output": ...}],
    whose output is a preview string or a critique dictionary. *)
Inductive LogOutput :=
| OutText (s : string)
| OutCritique (c : CritiqueResult.t).

Module LogEntry.
Record t := mk {
  agent : string;
  output : LogOutput
}.
End LogEntry.

(** The method that issues a request to the client, with its arguments. *)
Inductive Call :=
| CallProcess (agent_id : string) (message : AgentMessage)
| CallSearch (query : string)
| CallSynthesize (query retrieved_info : string)
| CallCritique (query response : string).

(** What the client receives: the model it is configured with, a system
    message and a human message.  [req_call] records where the request
    comes from. *)
Record Request := mkRequest {
  req_call : Call;
  req_model : string;
  req_system : string;
  req_prompt : string
}.

Record Exchange := mkExchange {
  ex_request : Request;
  ex_reply : Reply
}.

(** What a run reads from outside: the client, the clock (the [n]-th
    reading, in hundredths of a second), the process environment and the
    parsed [prompts/agents.yaml] ([None] when reading it raises). *)
Record Env := mkEnv {
  llm : list Exchange -> Request -> Reply;
  clock : nat -> Z;
  getenv : string -> option string;
  prompts_file : option (gmap string (gmap string string))
}.

Record World := mkWorld {
  exchanges : list Exchange;
  histories : gmap loc MessageHistory;
  logs : gmap loc (list LogEntry.t);
  clock_reads : nat
}.

Definition init_world : World :=
  {| exchanges := []; histories := ∅; logs := ∅; clock_reads := 0 |}.

(** A call returns, raises, or is cut off when a loop is given too few
    steps. *)
Inductive Outcome (A : Type) :=
| Returned (a : A) (w : World)
| Raised (e : GenerationError) (w : World)
| Unfinished (w : World).
Arguments Returned {A} a w.
Arguments Raised {A} e w.
Arguments Unfinished {A} w.

Definition final {A} (o : Outcome A) : World :=
  match o with
  | Returned _ w => w
  | Raised _ w => w
  | Unfinished w => w
  end.

Definition M (A : Type) : Type := Env -> World -> Outcome A.

Definition ret {A} (a : A) : M A := fun _ w => Returned a w.

Definition bind {A B} (m : M A) (k : A -> M B) : M B :=
  fun env w =>
    match m env w with
    | Returned a w' => k a env w'
    | Raised e w' => Raised e w'
    | Unfinished w' => Unfinished w'
    end.

Definition unfinished {A} : M A := fun _ w => Unfinished w.

Declare Scope py_scope.
Delimit Scope py_scope with py.
Notation "x <- m ;; k" := (bind m (fun x => k))
  (at level 100, m at next level, right associativity) : py_scope.
Notation "m ;; k" := (bind m (fun _ => k))
  (at level 100, right associativity) : py_scope.
Local Open Scope py_scope.

(** [while cond: body], cut off after [fuel] passes. *)
Fixpoint while {S} (fuel : nat) (cond : S -> bool) (body : S -> M S) (s : S)
  : M S :=
  if cond s then
    match fuel with
    | O => unfinished
    | Datatypes.S fuel' => s' <- body s ;; while fuel' cond body s'
    end
  else ret s.

(** The store after one more exchange, one more reading of the clock, and
    an assignment to a stored history or list. *)
Definition record_exchange (x : Exchange) (w : World) : World :=
  {| exchanges := exchanges w ++ [x];
     histories := histories w;
     logs := logs w;
     clock_reads := clock_reads w |}.

Definition tick (w : World) : World :=
  {| exchanges := exchanges w;
     histories := histories w;
     logs := logs w;
     clock_reads := Datatypes.S (clock_reads w) |}.

Definition store_history (l : loc) (h : MessageHistory) (w : World) : World :=
  {| exchanges := exchanges w;
     histories := <[l := h]> (histories w);
     logs := logs w;
     clock_reads := clock_reads w |}.

Definition store_log (l : loc) (entries : list LogEntry.t) (w : World) : World :=
  {| exchanges := exchanges w;
     histories := histories w;
     logs := <[l := entries]> (logs w);
     clock_reads := clock_reads w |}.

(** The history and the log stored at an address. *)
Definition history_at (l : loc) (w : World) : MessageHistory :=
  default MessageHistory_init (histories w !! l).

Definition log_at (l : loc) (w : World) : list LogEntry.t :=
  default [] (logs w !! l).

(** [self.llm.invoke(messages)] followed by [response.content]. *)
Definition invoke (req : Request) : M string :=
  fun env w =>
    let reply := llm env (exchanges w) req in
    let w' := record_exchange (mkExchange req reply) w in
    match reply with
    | Content text => Returned text w'
    | Fails e => Raised e w'
    end.

(** [time.time()] and [datetime.now()]. *)
Definition now : M Z :=
  fun env w => Returned (clock env (clock_reads w)) (tick w).

Definition read_env {A} (f : Env -> A) : M A :=
  fun env w => Returned (f env) w.

(** [MessageHistory()] *)
Definition new_history : M loc :=
  fun _ w =>
    let l := fresh (dom (histories w)) in
    Returned l (store_history l MessageHistory_init w).

(** A fresh empty list. *)
Definition new_log : M loc :=
  fun _ w =>
    let l := fresh (dom (logs w)) in
    Returned l (store_log l [] w).

(** [memory.add_message(message)] on the history stored at [l]. *)
Definition history_add (l : loc) (message : AgentMessage) : M unit :=
  fun _ w =>
    Returned tt (store_history l (add_message (history_at l w) message) w).

(** [memory.get_conversation_context()] on the history stored at [l]. *)
Definition history_context (l : loc) : M string :=
  fun _ w => Returned (get_conversation_context (history_at l w)) w.

(** [log.append(entry)] on the list stored at [l]. *)
Definition log_append (l : loc) (entry : LogEntry.t) : M unit :=
  fun _ w => Returned tt (store_log l (log_at l w ++ [entry]) w).

(** Observers of the exchanges made with the client. *)
Definition is_search (x : Exchange) : bool :=
  match req_call (ex_request x) with CallSearch _ => true | _ => false end.

Definition is_synthesize (x : Exchange) : bool :=
  match req_call (ex_request x) with CallSynthesize _ _ => true | _ => false end.

Definition is_critique (x : Exchange) : bool :=
  match req_call (ex_request x) with CallCritique _ _ => true | _ => false end.

Definition count_calls (p : Exchange -> bool) (t : list Exchange) : nat :=
  List.length (List.filter p t).

(** The texts returned to the calls selected by [p], in order. *)
Fixpoint outputs (p : Exchange -> bool) (t : list Exchange) : list string :=
  match t with
  | [] => []
  | x :: t' =>
      match ex_reply x with
      | Content text => if p x then text :: outputs p t' else outputs p t'
      | Fails _ => outputs p t'
      end
  end.

(** The [retrieved_info] arguments of the synthesis calls, in order. *)
Fixpoint synthesize_inputs (t : list Exchange) : list string :=
  match t with
  | [] => []
  | x :: t' =>
      match req_call (ex_request x) with
      | CallSynthesize _ info => info :: synthesize_inputs t'
      | _ => synthesize_inputs t'
      end
  end.

End Runtime.

(** ** agents.py *)

Module Agents.
Import Py Messages Runtime.
Local Open Scope py_scope.

(** An agent.  Its client is the shared oracle configured with
    [model_name]; the sampling temperature and the token limit are left
    to the oracle.  [memory] is the address of its [MessageHistory]. *)
Record BaseAgent := mkBaseAgent {
  agent_id : string;
  role : string;
  model_name : string;
  memory : loc;
  system_prompt : string
}.

(** [model_name or os.getenv("MODEL_NAME", "gpt-3.5-turbo")]: an absent or
    empty argument falls back to the environment. *)
Definition resolve_model_name (model_name : option string) (env : Env) : string :=
  match model_name with
  | Some (String c s) => String c s
  | _ => default "gpt-3.5-turbo" (getenv env "MODEL_NAME")
  end.

Definition _load_system_prompt (role : string) (env : Env) : string :=
  match prompts_file env with
  | Some prompts =>
      default ("You are a " +:+ role +:+ " agent.")
        (default ∅ (prompts !! role) !! "system_prompt")
  | None => "You are a " +:+ role +:+ " agent in a multi-agent system."
  end.

Definition BaseAgent_init (agent_id role : string) (model_name : option string)
  : M BaseAgent :=
  model <- read_env (resolve_model_name model_name) ;;
  memory <- new_history ;;
  system_prompt <- read_env (_load_system_prompt role) ;;
  ret {| agent_id := agent_id;
         role := role;
         model_name := model;
         memory := memory;
         system_prompt := system_prompt |}.

Definition request (self : BaseAgent) (call : Call) (prompt : string) : Request :=
  {| req_call := call;
     req_model := model_name self;
     req_system := system_prompt self;
     req_prompt := prompt |}.

Definition process_prompt (context : string) (message : AgentMessage) : string :=
  context +:+ nl +:+ nl +:+ "Current message: " +:+ content message
    +:+ nl +:+ nl +:+ "Your response:".

Definition process (self : BaseAgent) (message : AgentMessage) : M AgentMessage :=
  history_add (memory self) message ;;
  context <- history_context (memory self) ;;
  let prompt := process_prompt context message in
  response <- invoke (request self (CallProcess (agent_id self) message) prompt) ;;
  created <- now ;;
  let response_msg :=
    {| sender := agent_id self;
       recipient := sender message;
       message_type := RESPONSE;
       content := response;
       context := Messages.context message;
       metadata := {[ "model" := PyStr (model_name self) ]};
       timestamp := created |} in
  history_add (memory self) response_msg ;;
  ret response_msg.

(** The continuation lines of the triple-quoted prompts keep the eight
    spaces of their indentation in the source. *)
Definition indent : string := "        ".

Definition RetrieverAgent_init (model_name : option string) : M BaseAgent :=
  BaseAgent_init "retriever" "retriever" model_name.

Definition search_prompt (query : string) : string :=
  "Given the query: " +:+ dquote +:+ query +:+ dquote +:+ nl
  +:+ indent +:+ nl
  +:+ indent +:+ "Provide relevant information that would help answer this query." +:+ nl
  +:+ indent +:+ "Focus on facts, definitions, and key concepts." +:+ nl
  +:+ indent +:+ "If you don't have specific information, provide general context.".

Definition search (self : BaseAgent) (query : string) : M string :=
  invoke (request self (CallSearch query) (search_prompt query)).

Definition SynthesizerAgent_init (model_name : option string) : M BaseAgent :=
  BaseAgent_init "synthesizer" "synthesizer" model_name.

Definition synthesize_prompt (query retrieved_info : string) : string :=
  "Original query: " +:+ dquote +:+ query +:+ dquote +:+ nl
  +:+ indent +:+ nl
  +:+ indent +:+ "Retrieved information:" +:+ nl
  +:+ indent +:+ retrieved_info +:+ nl
  +:+ indent +:+ nl
  +:+ indent +:+ "Please synthesize this information into a clear, comprehensive answer." +:+ nl
  +:+ indent +:+ "Ensure the response is well-structured and directly addresses the query.".

Definition synthesize (self : BaseAgent) (query retrieved_info : string) : M string :=
  invoke (request self (CallSynthesize query retrieved_info)
            (synthesize_prompt query retrieved_info)).

Definition CriticAgent_init (model_name : option string) : M BaseAgent :=
  BaseAgent_init "critic" "critic" model_name.

Definition critique_prompt (query response : string) : string :=
  "Original query: " +:+ dquote +:+ query +:+ dquote +:+ nl
  +:+ indent +:+ nl
  +:+ indent +:+ "Response to evaluate:" +:+ nl
  +:+ indent +:+ response +:+ nl
  +:+ indent +:+ nl
  +:+ indent +:+ "Please evaluate this response for:" +:+ nl
  +:+ indent +:+ "1. Accuracy and factual correctness" +:+ nl
  +:+ indent +:+ "2. Completeness in addressing the query" +:+ nl
  +:+ indent +:+ "3. Clarity and coherence" +:+ nl
  +:+ indent +:+ "4. Any potential hallucinations or unsupported claims" +:+ nl
  +:+ indent +:+ nl
  +:+ indent +:+ "Provide:" +:+ nl
  +:+ indent +:+ "- A quality score (1-10)" +:+ nl
  +:+ indent +:+ "- Specific issues found" +:+ nl
  +:+ indent +:+ "- Suggested improvements" +:+ nl
  +:+ indent +:+ "- A revised response if needed".

(** The score read off the first fifty characters of the critique. *)
Definition extract_score (critique_text : string) : Z :=
  let head := str_slice_to 50 critique_text in
  if str_in "10" head then 10
  else if str_in "9" head then 9
  else if str_in "8" head then 8
  else if str_in "6" head then 6
  else if str_in "5" head then 5
  else 7.

Definition critique_result (critique_text : string) : CritiqueResult.t :=
  {| CritiqueResult.score := extract_score critique_text;
     CritiqueResult.critique := critique_text;
     CritiqueResult.issues := [];
     CritiqueResult.improvements := [] |}.

Definition critique (self : BaseAgent) (query response : string)
  : M CritiqueResult.t :=
  critique_text <- invoke (request self (CallCritique query response)
                             (critique_prompt query response)) ;;
  ret (critique_result critique_text).

(** The scores the critic handed back in a sequence of exchanges. *)
Definition observed_scores (t : list Exchange) : list Z :=
  map extract_score (outputs is_critique t).

End Agents.

(** ** workflow.py *)

Module Workflow.
Import Py Messages Runtime Agents.
Local Open Scope py_scope.

Record MultiAgentWorkflow := mkMultiAgentWorkflow {
  retriever : BaseAgent;
  synthesizer : BaseAgent;
  critic : BaseAgent;
  interaction_log : loc
}.

Definition MultiAgentWorkflow_init (model_name : option string)
  : M MultiAgentWorkflow :=
  retriever <- RetrieverAgent_init model_name ;;
  synthesizer <- SynthesizerAgent_init model_name ;;
  critic <- CriticAgent_init model_name ;;
  interaction_log <- new_log ;;
  ret {| retriever := retriever;
         synthesizer := synthesizer;
         critic := critic;
         interaction_log := interaction_log |}.

(** The dictionary returned by [run].  [interaction_log] is the address
    of the list owned by the workflow, not a copy of its content. *)
Module Result.
Record t := mk {
  query : string;
  final_response : string;
  quality_score : Z;
  critique : string;
  iterations : Z;
  time_taken : Z;
  interaction_log : loc
}.
End Result.

(** [s[:200] + "..." if len(s) > 200 else s] *)
Definition preview (s : string) : string :=
  if len s >? 200 then str_slice_to 200 s +:+ "..." else s.

(** The variables that the refinement loop assigns. *)
Record Loop := mkLoop {
  current_response : string;
  critique : CritiqueResult.t;
  iterations : Z
}.

Definition loop_cond (max_iterations : Z) (st : Loop) : bool :=
  (CritiqueResult.score (critique st) <? 7) && (iterations st <? max_iterations).

Definition refinement_prompt (synthesized_response : string)
  (critique : CritiqueResult.t) : string :=
  synthesized_response +:+ nl +:+ nl +:+ "Critique: "
    +:+ CritiqueResult.critique critique.

Definition loop_body (self : MultiAgentWorkflow) (query synthesized_response : string)
  (st : Loop) : M Loop :=
  let refinement_prompt := refinement_prompt synthesized_response (critique st) in
  current_response <- synthesize (synthesizer self) query refinement_prompt ;;
  critique <- Agents.critique (critic self) query current_response ;;
  ret {| current_response := current_response;
         critique := critique;
         iterations := iterations st + 1 |}.

(** The loop adds one to [iterations] on each pass and stops at
    [max_iterations], so this many passes are enough. *)
Definition loop_fuel (max_iterations : Z) : nat := Z.to_nat (max_iterations - 1).

Definition run (self : MultiAgentWorkflow) (query : string) (max_iterations : Z)
  : M Result.t :=
  start_time <- now ;;
  retrieved_info <- search (retriever self) query ;;
  log_append (interaction_log self)
    {| LogEntry.agent := "retriever";
       LogEntry.output := OutText (preview retrieved_info) |} ;;
  synthesized_response <- synthesize (synthesizer self) query retrieved_info ;;
  log_append (interaction_log self)
    {| LogEntry.agent := "synthesizer";
       LogEntry.output := OutText (preview synthesized_response) |} ;;
  critique <- Agents.critique (critic self) query synthesized_response ;;
  log_append (interaction_log self)
    {| LogEntry.agent := "critic";
       LogEntry.output := OutCritique critique |} ;;
  st <- while (loop_fuel max_iterations) (loop_cond max_iterations)
          (loop_body self query synthesized_response)
          {| current_response := synthesized_response;
             critique := critique;
             iterations := 1 |} ;;
  end_time <- now ;;
  ret {| Result.query := query;
         Result.final_response := current_response st;
         Result.quality_score := CritiqueResult.score (Workflow.critique st);
         Result.critique := CritiqueResult.critique (Workflow.critique st);
         Result.iterations := iterations st;
         Result.time_taken := end_time - start_time;
         Result.interaction_log := interaction_log self |}.

Definition run_simple (self : MultiAgentWorkflow) (query : string) : M string :=
  result <- run self query 2 ;;
  ret (Result.final_response result).

End Workflow.

(** ** Concrete clients, agents and messages *)

Module Examples.
Import Py Messages Runtime Agents Workflow.

Definition query_1 : AgentMessage :=
  {| sender := "a1";
     recipient := "a2";
     message_type := QUERY;
     content := "Query 1";
     context := {[ "topic" := PyStr "testing" ]};
     metadata := ∅;
     timestamp := 0 |}.

Definition drafts : list string := ["first draft"; "second draft"; "third draft"].

(** A client that answers a search with fixed facts, the [n]-th synthesis
    with the [n]-th draft and the [n]-th critique with the [n]-th text of
    [critiques]. *)
Definition scripted (critiques : list string) (t : list Exchange) (req : Request)
  : Reply :=
  match req_call req with
  | CallProcess _ _ => Content "Noted."
  | CallSearch _ => Content "Some facts."
  | CallSynthesize _ _ => Content (nth (count_calls is_synthesize t) drafts "draft")
  | CallCritique _ _ =>
      Content (nth (count_calls is_critique t) critiques "Looks fine.")
  end.

(** Critiques that score 5 and then 8, and critiques that never get past 5. *)
Definition five_then_eight : list string :=
  ["Score: 5. Too thin."; "Score: 8. Better."].

Definition always_five : list string :=
  ["Score: 5. Too thin."; "Score: 5. Still thin."; "Score: 5. No."].

(** A client that is out of quota. *)
Definition rate_limited (t : list Exchange) (req : Request) : Reply :=
  Fails RateLimitError.

Definition env_of (client : list Exchange -> Request -> Reply) : Env :=
  {| llm := client;
     clock := fun n => 100 * Z.of_nat n;
     getenv := fun _ => None;
     prompts_file := None |}.

Definition agent_of (name : string) (memory : loc) : BaseAgent :=
  {| agent_id := name;
     role := name;
     model_name := "gpt-3.5-turbo";
     memory := memory;
     system_prompt := "You are a " +:+ name +:+ " agent in a multi-agent system." |}.

(** The workflow and the store that [MultiAgentWorkflow()] builds in an
    empty store. *)
Definition workflow_0 : MultiAgentWorkflow :=
  {| retriever := agent_of "retriever" 1%positive;
     synthesizer := agent_of "synthesizer" 2%positive;
     critic := agent_of "critic" 3%positive;
     interaction_log := 1%positive |}.

Definition world_0 : World :=
  {| exchanges := [];
     histories := <[3%positive := MessageHistory_init]>
                    (<[2%positive := MessageHistory_init]>
                       (<[1%positive := MessageHistory_init]> ∅));
     logs := <[1%positive := []]> ∅;
     clock_reads := 0 |}.

End Examples.

(** ** examples/demo.py *)

Module Demo.
Import Py Messages Runtime Agents Workflow.
Local Open Scope py_scope.

(** [for query in queries: result = workflow.run(query)], the loop of
    [demo_simple]; the results it prints are handed back in order. *)
Fixpoint run_each (workflow : MultiAgentWorkflow) (queries : list string)
  : M (list Result.t) :=
  match queries with
  | [] => ret []
  | query :: rest =>
      result <- run workflow query 2 ;;
      results <- run_each workflow rest ;;
      ret (result :: results)
  end.

Definition queries : list string :=
  ["What is quantum computing and how does it differ from classical computing?";
   "Explain the concept of blockchain in simple terms.";
   "What are the main challenges in developing artificial general intelligence?"].

Definition demo_simple : M (list Result.t) :=
  workflow <- MultiAgentWorkflow_init None ;;
  run_each workflow queries.

End Demo.

(** ** evaluate.py *)

Module Evaluate.
Import Py.

(** [c.isspace()] for a character below 256. *)
Definition isspace (c : ascii) : bool :=
  let n := nat_of_ascii c in
  ((9 <=? n) && (n <=? 13) || (28 <=? n) && (n <=? 32)
   || (n =? 133) || (n =? 160))%nat.

(** [s.split()]: the maximal runs of characters that are not white space.
    [word] is the run being read. *)
Fixpoint split_from (word s : string) : list string :=
  match s with
  | EmptyString =>
      match word with
      | EmptyString => []
      | _ => [word]
      end
  | String c s' =>
      if isspace c then
        match word with
        | EmptyString => split_from "" s'
        | _ => word :: split_from "" s'
        end
      else split_from (word +:+ String c "") s'
  end.

Definition split (s : string) : list string := split_from "" s.

(** [len(response.split())] *)
Definition evaluate_response_length (response : string) : Z :=
  Z.of_nat (List.length (split response)).

End Evaluate.

(** ** More concrete inputs *)

Module Cases.
Import Py Messages Runtime Agents Workflow.

Definition reply_1 : AgentMessage :=
  {| sender := "a2";
     recipient := "a1";
     message_type := RESPONSE;
     content := "Response 1";
     context := ∅;
     metadata := ∅;
     timestamp := 1 |}.

(** A message numbered [n], and the history of the first [k] of them. *)
Definition numbered (n : nat) : AgentMessage :=
  {| sender := "a1";
     recipient := "a2";
     message_type := QUERY;
     content := String (ascii_of_nat (65 + n)) "";
     context := ∅;
     metadata := ∅;
     timestamp := Z.of_nat n |}.

Definition numbered_history (k : nat) : MessageHistory :=
  {| messages := map numbered (seq 0 k) |}.

(** A client that answers every request but those of the synthesizer. *)
Definition synthesis_down (t : list Exchange) (req : Request) : Reply :=
  match req_call req with
  | CallSynthesize _ _ => Fails TimeoutError
  | _ => Examples.scripted Examples.always_five t req
  end.

(** Critiques of which the first one is content with the answer. *)
Definition nine_first : list string := ["Score: 9. Solid answer."].

End Cases.

(** * Properties *)

(** ** Strings and slices *)

Section PyFacts.
Import Py.

Lemma append_assoc (a b c : string) : (a +:+ b) +:+ c = a +:+ (b +:+ c).
Proof.
  induction a as [|ch a IH]; [reflexivity|].
  change (String ch ((a +:+ b) +:+ c) = String ch (a +:+ (b +:+ c))).
  now rewrite IH.
Qed.

Lemma append_empty_r (a : string) : a +:+ "" = a.
Proof.
  induction a as [|ch a IH]; [reflexivity|].
  change (String ch (a +:+ "") = String ch a).
  now rewrite IH.
Qed.

Lemma slice_from_last {A} (n : nat) (l : list A) :
  (0 < n)%nat ->
  slice_from (- Z.of_nat n) l = skipn (List.length l - n) l.
Proof.
  intros Hn. unfold slice_from.
  destruct (Z.ltb_spec (- Z.of_nat n) 0) as [_|H]; [|lia].
  f_equal. lia.
Qed.

Lemma slice_from_suffix {A} (n : nat) (l : list A) :
  (0 < n)%nat ->
  l = firstn (List.length l - n) l ++ slice_from (- Z.of_nat n) l /\
  List.length (slice_from (- Z.of_nat n) l) = Nat.min n (List.length l).
Proof.
  intros Hn. rewrite slice_from_last by assumption. split.
  - symmetry. apply firstn_skipn.
  - rewrite length_skipn. lia.
Qed.

End PyFacts.

(** ** The message history *)

Section MessagesFacts.
Import Py Messages.

Lemma appended_messages (ms : list AgentMessage) (h : MessageHistory) :
  messages (fold_left add_message ms h) = messages h ++ ms.
Proof.
  revert h. induction ms as [|m ms IH]; intros h; simpl.
  - now rewrite app_nil_r.
  - rewrite IH. simpl. now rewrite <- app_assoc.
Qed.

Lemma transcript_fold (ms : list AgentMessage) (start : string) :
  fold_left (fun context msg => context +:+ (to_prompt_context msg +:+ nl)) ms start
  = start +:+ transcript_lines ms.
Proof.
  revert start. induction ms as [|m ms IH]; intros start;
    cbn [fold_left transcript_lines fold_right].
  - now rewrite append_empty_r.
  - rewrite IH. now rewrite !append_assoc.
Qed.

Lemma context_of_messages (h : MessageHistory) :
  get_conversation_context h =
  match messages h with
  | [] => "No previous conversation."
  | _ => "Previous conversation:" +:+ nl
           +:+ transcript_lines (slice_from (-10) (messages h))
  end.
Proof.
  unfold get_conversation_context.
  destruct (messages h) as [|m ms]; [reflexivity|].
  rewrite transcript_fold. reflexivity.
Qed.

(** C5. Whatever messages were appended, the history keeps all of them in
    append order, an append only adds at the end, and the context view
    renders a suffix of the history of at most ten messages (exactly ten
    once there are that many), line by line in that order. *)
Theorem context_view_last_ten (ms : list AgentMessage) :
  messages (appended ms) = ms /\
  (forall m, messages (add_message (appended ms) m) = ms ++ [m]) /\
  exists earlier window,
    ms = earlier ++ window /\
    List.length window = Nat.min 10 (List.length ms) /\
    (List.length window <= 10)%nat /\
    get_conversation_context (appended ms) =
      match ms with
      | [] => "No previous conversation."
      | _ => "Previous conversation:" +:+ nl +:+ transcript_lines window
      end.
Proof.
  assert (Hms : messages (appended ms) = ms).
  { unfold appended. now rewrite appended_messages. }
  split; [exact Hms|]. split.
  - intros m. simpl. now rewrite Hms.
  - exists (firstn (List.length ms - 10) ms), (slice_from (-10) ms).
    destruct (slice_from_suffix 10 ms ltac:(lia)) as [Hsplit Hlen].
    change (- Z.of_nat 10) with (-10) in *.
    split; [exact Hsplit|]. split; [exact Hlen|]. split; [lia|].
    rewrite context_of_messages, Hms. reflexivity.
Qed.

(** C6, as the specification words it, fails on a history of one message:
    the view opens with a header line and closes every line with a
    newline. *)
Lemma context_view_not_joined_lines :
  get_conversation_context (appended [Examples.query_1])
  <> spec_context_view (appended [Examples.query_1]).
Proof. vm_compute. discriminate. Qed.

(** C6, amended. The context view depends on the stored messages only.  On
    an empty history it is the sentinel, which is not the empty string; on
    any other it is the header line followed by the last ten messages, each
    rendered as "[sender -> recipient]: content" and each line closed by a
    newline. *)
Theorem context_view_rendering (h : MessageHistory) :
  (forall h', messages h' = messages h ->
     get_conversation_context h' = get_conversation_context h) /\
  get_conversation_context h =
    match messages h with
    | [] => "No previous conversation."
    | _ => "Previous conversation:" +:+ nl
             +:+ transcript_lines
                   (skipn (List.length (messages h) - 10) (messages h))
    end /\
  "No previous conversation." <> "" /\
  (forall m rest,
     transcript_lines (m :: rest) =
       "[" +:+ sender m +:+ " -> " +:+ recipient m +:+ "]: " +:+ content m
         +:+ nl +:+ transcript_lines rest) /\
  to_prompt_context Examples.query_1 = "[a1 -> a2]: Query 1".
Proof.
  split; [|split; [|split; [|split]]].
  - intros h' Heq. unfold get_conversation_context. now rewrite Heq.
  - rewrite context_of_messages.
    pose proof (slice_from_last 10 (messages h) ltac:(lia)) as Hlast.
    change (- Z.of_nat 10) with (-10) in Hlast.
    now rewrite Hlast.
  - discriminate.
  - intros m rest. cbn [transcript_lines fold_right]. unfold to_prompt_context.
    now rewrite !append_assoc.
  - reflexivity.
Qed.

End MessagesFacts.

(** ** Agents *)

Section AgentsFacts.
Import Py Messages Runtime Agents.

Lemma bind_returned {A B} (m : M A) (k : A -> M B) env w a w' :
  m env w = Returned a w' -> bind m k env w = k a env w'.
Proof. intros H. unfold bind. now rewrite H. Qed.

Lemma bind_raised {A B} (m : M A) (k : A -> M B) env w e w' :
  m env w = Raised e w' -> bind m k env w = Raised e w'.
Proof. intros H. unfold bind. now rewrite H. Qed.

Lemma invoke_content req env w text :
  llm env (exchanges w) req = Content text ->
  invoke req env w =
    Returned text (record_exchange (mkExchange req (Content text)) w).
Proof. intros H. unfold invoke. now rewrite H. Qed.

Lemma invoke_fails req env w e :
  llm env (exchanges w) req = Fails e ->
  invoke req env w = Raised e (record_exchange (mkExchange req (Fails e)) w).
Proof. intros H. unfold invoke. now rewrite H. Qed.

Lemma history_at_store l h w : history_at l (store_history l h w) = h.
Proof. unfold history_at, store_history. simpl. now rewrite lookup_insert_eq. Qed.

Lemma history_at_store_ne l l' h w :
  l <> l' -> history_at l' (store_history l h w) = history_at l' w.
Proof.
  intros Hne. unfold history_at, store_history. simpl.
  now rewrite lookup_insert_ne.
Qed.

Lemma log_at_store l entries w : log_at l (store_log l entries w) = entries.
Proof. unfold log_at, store_log. simpl. now rewrite lookup_insert_eq. Qed.

Lemma extract_score_values (text : string) :
  In (extract_score text) [10; 9; 8; 6; 5; 7].
Proof.
  unfold extract_score.
  repeat match goal with
         | |- context [if ?b then _ else _] => destruct b
         end; simpl; tauto.
Qed.

Lemma extract_score_range (text : string) : 1 <= extract_score text <= 10.
Proof.
  pose proof (extract_score_values text) as H. simpl in H.
  intuition lia.
Qed.

(** When the client fails, [process] raises after it has stored the
    incoming message. *)
Lemma process_raises env w self message e :
  llm env (exchanges w)
    (request self (CallProcess (agent_id self) message)
       (process_prompt
          (get_conversation_context
             (add_message (history_at (memory self) w) message))
          message))
  = Fails e ->
  exists w',
    process self message env w = Raised e w' /\
    messages (history_at (memory self) w')
    = messages (history_at (memory self) w) ++ [message].
Proof.
  intros Hllm. unfold process, bind, history_add, history_context.
  rewrite history_at_store.
  erewrite invoke_fails by exact Hllm.
  eexists. split; [reflexivity|].
  unfold record_exchange, history_at. simpl. now rewrite lookup_insert_eq.
Qed.

(** C7. When the client answers, [process] returns a message from the
    agent to the sender of the incoming one, of type response, holding the
    answer, the context of the incoming message and the model of the agent
    as metadata; the request went to that model; and the history of the
    agent has grown by the incoming message followed by the response, the
    other histories being left as they were. *)
Theorem process_appends_two env w self message text :
  llm env (exchanges w)
    (request self (CallProcess (agent_id self) message)
       (process_prompt
          (get_conversation_context
             (add_message (history_at (memory self) w) message))
          message))
  = Content text ->
  exists response w' sent,
    process self message env w = Returned response w' /\
    messages (history_at (memory self) w')
    = messages (history_at (memory self) w) ++ [message; response] /\
    sender response = agent_id self /\
    recipient response = sender message /\
    message_type response = RESPONSE /\
    content response = text /\
    context response = context message /\
    metadata response = {[ "model" := PyStr (model_name self) ]} /\
    exchanges w' = exchanges w ++ [sent] /\
    req_model (ex_request sent) = model_name self /\
    (forall l, l <> memory self -> history_at l w' = history_at l w).
Proof.
  intros Hllm. unfold process, bind, history_add, history_context, now.
  rewrite history_at_store.
  erewrite invoke_content by exact Hllm.
  unfold ret. do 3 eexists. split; [reflexivity|].
  repeat split.
  - rewrite history_at_store. simpl. unfold history_at. simpl.
    rewrite lookup_insert_eq. simpl. now rewrite <- app_assoc.
  - intros l Hl. rewrite history_at_store_ne by congruence.
    unfold history_at. simpl. now rewrite lookup_insert_ne by congruence.
Qed.

Lemma process_appends_two_example :
  exists response w',
    process (Examples.agent_of "critic" 3%positive) Examples.query_1
      (Examples.env_of (Examples.scripted [])) Examples.world_0
    = Returned response w' /\
    recipient response = "a1" /\
    content response = "Noted." /\
    messages (history_at 3%positive w') = [Examples.query_1; response].
Proof.
  destruct (process_appends_two (Examples.env_of (Examples.scripted []))
              Examples.world_0 (Examples.agent_of "critic" 3%positive)
              Examples.query_1 "Noted." eq_refl)
    as (response & w' & sent & Hrun & Hmem & _ & Hto & _ & Htext & _).
  exists response, w'. repeat split; assumption.
Defined.

(** C9. When the client answers the critic with [text], [critique] returns
    a score between 1 and 10 together with [text] itself as the critique;
    the score is 7 when none of "10", "9", "8", "6", "5" occurs in the first
    fifty characters of [text]. *)
Theorem critique_score_and_text env w self query response text :
  llm env (exchanges w)
    (request self (CallCritique query response) (critique_prompt query response))
  = Content text ->
  exists result w',
    critique self query response env w = Returned result w' /\
    1 <= CritiqueResult.score result <= 10 /\
    In (CritiqueResult.score result) [10; 9; 8; 6; 5; 7] /\
    CritiqueResult.critique result = text /\
    (Forall (fun token => str_in token (str_slice_to 50 text) = false)
       ["10"; "9"; "8"; "6"; "5"] ->
     CritiqueResult.score result = 7).
Proof.
  intros Hllm. unfold critique.
  rewrite (bind_returned _ _ _ _ _ _ (invoke_content _ _ _ _ Hllm)).
  unfold ret. do 2 eexists. split; [reflexivity|].
  cbn [critique_result CritiqueResult.score CritiqueResult.critique].
  split; [apply extract_score_range|].
  split; [apply extract_score_values|].
  split; [reflexivity|].
  intros Hnone.
  repeat match goal with
         | H : Forall _ (_ :: _) |- _ => inversion H; subst; clear H
         end.
  unfold extract_score.
  repeat match goal with
         | H : str_in _ _ = false |- _ => rewrite H; clear H
         end.
  reflexivity.
Qed.

Lemma critique_score_and_text_example :
  exists result w',
    critique (Examples.agent_of "critic" 3%positive) "q" "An answer."
      (Examples.env_of (Examples.scripted ["Looks plausible overall."]))
      Examples.world_0
    = Returned result w' /\
    CritiqueResult.score result = 7 /\
    CritiqueResult.critique result = "Looks plausible overall.".
Proof.
  destruct (critique_score_and_text
              (Examples.env_of (Examples.scripted ["Looks plausible overall."]))
              Examples.world_0 (Examples.agent_of "critic" 3%positive)
              "q" "An answer." "Looks plausible overall." eq_refl)
    as (result & w' & Hrun & _ & _ & Htext & Hdefault).
  exists result, w'. split; [exact Hrun|]. split; [|exact Htext].
  apply Hdefault. repeat constructor.
Defined.

End AgentsFacts.

(** ** The orchestrator *)

Section WorkflowFacts.
Import Py Messages Runtime Agents Workflow.

Lemma count_calls_app p (t1 t2 : list Exchange) :
  count_calls p (t1 ++ t2) = (count_calls p t1 + count_calls p t2)%nat.
Proof. unfold count_calls. now rewrite List.filter_app, List.length_app. Qed.

Lemma outputs_app p (t1 t2 : list Exchange) :
  outputs p (t1 ++ t2) = outputs p t1 ++ outputs p t2.
Proof.
  induction t1 as [|x t1 IH]; simpl; [reflexivity|].
  destruct (ex_reply x); [|exact IH].
  destruct (p x); simpl; now rewrite IH.
Qed.

Lemma synthesize_inputs_app (t1 t2 : list Exchange) :
  synthesize_inputs (t1 ++ t2) = synthesize_inputs t1 ++ synthesize_inputs t2.
Proof.
  induction t1 as [|x t1 IH]; simpl; [reflexivity|].
  destruct (req_call (ex_request x)); simpl; now rewrite IH.
Qed.

Lemma last_cons_default {A} (l : list A) (a d : A) :
  List.last (a :: l) d = List.last l a.
Proof.
  revert a d. induction l as [|b l IH]; intros a d; [reflexivity|].
  change (List.last (a :: b :: l) d) with (List.last (b :: l) d).
  now rewrite !IH.
Qed.

Lemma outputs_none p (t : list Exchange) :
  count_calls p t = 0%nat -> outputs p t = [].
Proof.
  unfold count_calls. induction t as [|x t IH]; simpl; [reflexivity|].
  destruct (p x) eqn:Hp; simpl; [discriminate|].
  intros H. destruct (ex_reply x); auto.
Qed.

Ltac calls_arith := unfold count_calls in *; simpl in *; lia.

(** The loop test fails exactly when the score has reached 7 or the
    counter has reached the cap. *)
Lemma loop_cond_false max_iterations st :
  loop_cond max_iterations st = false <->
  7 <= CritiqueResult.score (critique st) \/ max_iterations <= iterations st.
Proof.
  unfold loop_cond. rewrite andb_false_iff, !Z.ltb_ge. reflexivity.
Qed.

Lemma loop_cond_true max_iterations st :
  loop_cond max_iterations st = true <->
  CritiqueResult.score (critique st) < 7 /\ iterations st < max_iterations.
Proof.
  unfold loop_cond. rewrite andb_true_iff, !Z.ltb_lt. reflexivity.
Qed.

(** One pass of the loop, case by case on what the client replies. *)
Lemma loop_body_cases self query synthesized_response st env w :
  let info := refinement_prompt synthesized_response (critique st) in
  let rq1 := request (synthesizer self) (CallSynthesize query info)
               (synthesize_prompt query info) in
  loop_body self query synthesized_response st env w =
  match llm env (exchanges w) rq1 with
  | Fails e => Raised e (record_exchange (mkExchange rq1 (Fails e)) w)
  | Content s =>
      let w1 := record_exchange (mkExchange rq1 (Content s)) w in
      let rq2 := request (critic self) (CallCritique query s)
                   (critique_prompt query s) in
      match llm env (exchanges w1) rq2 with
      | Fails e => Raised e (record_exchange (mkExchange rq2 (Fails e)) w1)
      | Content c =>
          Returned {| current_response := s;
                      critique := critique_result c;
                      iterations := iterations st + 1 |}
            (record_exchange (mkExchange rq2 (Content c)) w1)
      end
  end.
Proof.
  cbv zeta. unfold loop_body, synthesize, Agents.critique, bind, invoke.
  destruct (llm env (exchanges w) _) as [s|e]; [|reflexivity].
  destruct (llm env _ _) as [c|e]; reflexivity.
Qed.

(** What the refinement loop does from any state, given at least as many
    passes as the counter is short of the cap. *)
Lemma refine_loop self query synthesized_response max_iterations env :
  forall fuel st w,
    max_iterations - iterations st <= Z.of_nat fuel ->
    exists new,
      let o := while fuel (loop_cond max_iterations)
                 (loop_body self query synthesized_response) st env w in
      exchanges (final o) = exchanges w ++ new /\
      logs (final o) = logs w /\
      count_calls is_search new = 0%nat /\
      Z.of_nat (count_calls is_critique new)
      <= Z.max 0 (max_iterations - iterations st) /\
      Forall (fun info => exists c, info = refinement_prompt synthesized_response c)
        (synthesize_inputs new) /\
      (forall w', o <> Unfinished w') /\
      ((forall t r, exists text, llm env t r = Content text) ->
       exists st' w', o = Returned st' w') /\
      (forall st' w', o = Returned st' w' ->
         exists earlier,
           CritiqueResult.score (critique st) :: observed_scores new
           = earlier ++ [CritiqueResult.score (critique st')] /\
           Forall (fun s => s < 7) earlier /\
           iterations st' = iterations st + Z.of_nat (List.length (observed_scores new)) /\
           count_calls is_critique new = List.length (observed_scores new) /\
           List.length (outputs is_synthesize new) = List.length (observed_scores new) /\
           List.last (outputs is_synthesize new) (current_response st)
           = current_response st' /\
           iterations st' <= Z.max max_iterations (iterations st) /\
           (7 <= CritiqueResult.score (critique st') \/ max_iterations <= iterations st')).
Proof.
  induction fuel as [|fuel IH]; intros st w Hfuel;
    destruct (loop_cond max_iterations st) eqn:Hcond.
  2, 4: (exists []; cbn [while]; rewrite Hcond; unfold ret; cbn [final];
         rewrite app_nil_r; apply loop_cond_false in Hcond;
         repeat match goal with |- _ /\ _ => split end;
         [ reflexivity | reflexivity | reflexivity | calls_arith | constructor
         | congruence | eauto | ];
         intros st' w' [= <- <-]; exists []; simpl;
         repeat match goal with |- _ /\ _ => split end;
         try reflexivity; try lia; constructor).
  - apply loop_cond_true in Hcond. lia.
  - pose proof (proj1 (loop_cond_true _ _) Hcond) as [Hlow Hlt].
    assert (Hstep :
      while (S fuel) (loop_cond max_iterations)
        (loop_body self query synthesized_response) st env w
      = match loop_body self query synthesized_response st env w with
        | Returned st1 w1 =>
            while fuel (loop_cond max_iterations)
              (loop_body self query synthesized_response) st1 env w1
        | Raised e w1 => Raised e w1
        | Unfinished w1 => Unfinished w1
        end).
    { cbn [while]. rewrite Hcond. reflexivity. }
    rewrite loop_body_cases in Hstep. cbv zeta in Hstep.
    set (info := refinement_prompt synthesized_response (critique st)) in *.
    set (rq1 := request (synthesizer self) (CallSynthesize query info) _) in *.
    destruct (llm env (exchanges w) rq1) as [s|e] eqn:H1.
    2:{ exists [mkExchange rq1 (Fails e)]. cbv zeta. rewrite Hstep. cbn [final].
        repeat match goal with |- _ /\ _ => split end;
          try reflexivity; try congruence; try calls_arith.
        - repeat constructor. now exists (critique st).
        - intros Hok. destruct (Hok (exchanges w) rq1) as [text Ht]. congruence. }
    set (w1 := record_exchange (mkExchange rq1 (Content s)) w) in *.
    set (rq2 := request (critic self) (CallCritique query s) _) in *.
    destruct (llm env (exchanges w1) rq2) as [c|e] eqn:H2.
    2:{ exists [mkExchange rq1 (Content s); mkExchange rq2 (Fails e)].
        cbv zeta. rewrite Hstep. cbn [final].
        repeat match goal with |- _ /\ _ => split end;
          try reflexivity; try congruence; try calls_arith.
        - cbn. now rewrite <- app_assoc.
        - repeat constructor. now exists (critique st).
        - intros Hok. destruct (Hok (exchanges w1) rq2) as [text Ht]. congruence. }
    set (st1 := {| current_response := s; critique := critique_result c;
                   iterations := iterations st + 1 |}) in *.
    set (w2 := record_exchange (mkExchange rq2 (Content c)) w1) in *.
    destruct (IH st1 w2) as (new & Hex & Hlogs & Hsearch & Hcount & Hinfo
                             & Hfin & Htotal & Hret);
      [cbn; lia |].
    cbv zeta in Hex, Hlogs, Hfin, Htotal, Hret.
    exists (mkExchange rq1 (Content s) :: mkExchange rq2 (Content c) :: new).
    cbv zeta. rewrite Hstep.
    repeat match goal with |- _ /\ _ => split end.
    + rewrite Hex. cbn. now rewrite <- !app_assoc.
    + rewrite Hlogs. reflexivity.
    + exact Hsearch.
    + change (count_calls is_critique
                (mkExchange rq1 (Content s) :: mkExchange rq2 (Content c) :: new))
        with (S (count_calls is_critique new)).
      cbn in Hcount. lia.
    + cbn. constructor; [now exists (critique st) | exact Hinfo].
    + exact Hfin.
    + exact Htotal.
    + intros st' w' Hrun. destruct (Hret st' w' Hrun)
        as (earlier & Hscores & Hbelow & Hit & Hcrit & Hsyn & Hlast & Hcap & Hstop).
      exists (CritiqueResult.score (critique st) :: earlier).
      change (observed_scores
                (mkExchange rq1 (Content s) :: mkExchange rq2 (Content c) :: new))
        with (extract_score c :: observed_scores new).
      change (outputs is_synthesize
                (mkExchange rq1 (Content s) :: mkExchange rq2 (Content c) :: new))
        with (s :: outputs is_synthesize new).
      change (count_calls is_critique
                (mkExchange rq1 (Content s) :: mkExchange rq2 (Content c) :: new))
        with (S (count_calls is_critique new)).
      cbn in Hscores, Hit, Hlast.
      repeat match goal with |- _ /\ _ => split end.
      * cbn. now rewrite <- Hscores.
      * constructor; assumption.
      * cbn [List.length]. lia.
      * cbn [List.length]. now rewrite Hcrit.
      * cbn [List.length]. now rewrite Hsyn.
      * rewrite <- Hlast. apply last_cons_default.
      * cbn in Hcap. lia.
      * exact Hstop.
Qed.

(** [run], case by case on what the client replies to the three opening
    requests and on how the loop ends. *)
Lemma run_cases self query max_iterations env w :
  let log := interaction_log self in
  let rq1 := request (retriever self) (CallSearch query) (search_prompt query) in
  run self query max_iterations env w =
  match llm env (exchanges w) rq1 with
  | Fails e => Raised e (record_exchange (mkExchange rq1 (Fails e)) (tick w))
  | Content info =>
      let w1 := record_exchange (mkExchange rq1 (Content info)) (tick w) in
      let w1 := store_log log
                  (log_at log w1 ++ [LogEntry.mk "retriever" (OutText (preview info))])
                  w1 in
      let rq2 := request (synthesizer self) (CallSynthesize query info)
                   (synthesize_prompt query info) in
      match llm env (exchanges w1) rq2 with
      | Fails e => Raised e (record_exchange (mkExchange rq2 (Fails e)) w1)
      | Content answer =>
          let w2 := record_exchange (mkExchange rq2 (Content answer)) w1 in
          let w2 := store_log log
                      (log_at log w2
                         ++ [LogEntry.mk "synthesizer" (OutText (preview answer))])
                      w2 in
          let rq3 := request (critic self) (CallCritique query answer)
                       (critique_prompt query answer) in
          match llm env (exchanges w2) rq3 with
          | Fails e => Raised e (record_exchange (mkExchange rq3 (Fails e)) w2)
          | Content text =>
              let w3 := record_exchange (mkExchange rq3 (Content text)) w2 in
              let w3 := store_log log
                          (log_at log w3
                             ++ [LogEntry.mk "critic" (OutCritique (critique_result text))])
                          w3 in
              match
                while (loop_fuel max_iterations) (loop_cond max_iterations)
                  (loop_body self query answer)
                  {| current_response := answer;
                     critique := critique_result text;
                     iterations := 1 |} env w3
              with
              | Returned st w4 =>
                  Returned
                    {| Result.query := query;
                       Result.final_response := current_response st;
                       Result.quality_score := CritiqueResult.score (critique st);
                       Result.critique := CritiqueResult.critique (critique st);
                       Result.iterations := iterations st;
                       Result.time_taken :=
                         clock env (clock_reads w4) - clock env (clock_reads w);
                       Result.interaction_log := log |}
                    (tick w4)
              | Raised e w4 => Raised e w4
              | Unfinished w4 => Unfinished w4
              end
          end
      end
  end.
Proof.
  cbv zeta.
  unfold run, search, synthesize, Agents.critique, log_append, now, ret.
  unfold bind at 1. unfold bind at 1. unfold invoke at 1.
  change (exchanges (tick w)) with (exchanges w).
  destruct (llm env (exchanges w) _) as [info|e]; [|reflexivity].
  unfold bind at 1. unfold bind at 1. unfold invoke at 1.
  match goal with
  | |- context [llm env ?t ?r] => destruct (llm env t r) as [answer|e]
  end; [|reflexivity].
  unfold bind at 1. unfold bind at 1. unfold bind at 1. unfold invoke at 1.
  match goal with
  | |- context [llm env ?t ?r] => destruct (llm env t r) as [text|e]
  end; [|reflexivity].
  unfold bind at 1. unfold bind at 1.
  match goal with
  | |- context [while ?f ?c ?b ?s env ?w'] => destruct (while f c b s env w')
  end; reflexivity.
Qed.

(** Everything a call of [run] does: the requests it makes, the way it
    ends, and what it leaves in the log. *)
Lemma run_summary self query max_iterations env w :
  exists new,
    let o := run self query max_iterations env w in
    exchanges (final o) = exchanges w ++ new /\
    Z.of_nat (count_calls is_critique new) <= Z.max 1 max_iterations /\
    (forall w', o <> Unfinished w') /\
    ((forall t r, exists text, llm env t r = Content text) ->
     exists res w', o = Returned res w') /\
    (forall res w', o = Returned res w' ->
       (exists earlier,
          observed_scores new = earlier ++ [Result.quality_score res] /\
          Forall (fun s => s < 7) earlier) /\
       Result.iterations res = Z.of_nat (List.length (observed_scores new)) /\
       count_calls is_critique new = List.length (observed_scores new) /\
       List.length (outputs is_synthesize new) = List.length (observed_scores new) /\
       Result.iterations res <= Z.max 1 max_iterations /\
       (7 <= Result.quality_score res \/ max_iterations <= Result.iterations res) /\
       List.last (outputs is_synthesize new) "" = Result.final_response res /\
       Result.interaction_log res = interaction_log self /\
       exists info answer text,
         outputs is_search new = [info] /\
         List.head (outputs is_synthesize new) = Some answer /\
         List.head (outputs is_critique new) = Some text /\
         log_at (interaction_log self) w'
         = log_at (interaction_log self) w
             ++ [LogEntry.mk "retriever" (OutText (preview info));
                 LogEntry.mk "synthesizer" (OutText (preview answer));
                 LogEntry.mk "critic" (OutCritique (critique_result text))]).
Proof.
  pose proof (run_cases self query max_iterations env w) as Hrun.
  cbv zeta in Hrun.
  set (rq1 := request (retriever self) (CallSearch query) _) in *.
  destruct (llm env (exchanges w) rq1) as [info|e] eqn:H1.
  2:{ exists [mkExchange rq1 (Fails e)]. cbv zeta. rewrite Hrun. cbn [final].
      repeat match goal with |- _ /\ _ => split end;
        try reflexivity; try congruence; try calls_arith.
      intros Hok. destruct (Hok (exchanges w) rq1) as [t Ht]. congruence. }
  set (w1 := store_log _ _ _) in Hrun.
  set (rq2 := request (synthesizer self) (CallSynthesize query info) _) in *.
  destruct (llm env (exchanges w1) rq2) as [answer|e] eqn:H2.
  2:{ exists [mkExchange rq1 (Content info); mkExchange rq2 (Fails e)].
      cbv zeta. rewrite Hrun. cbn [final].
      repeat match goal with |- _ /\ _ => split end;
        try congruence; try calls_arith.
      - cbn. now rewrite <- app_assoc.
      - intros Hok. destruct (Hok (exchanges w1) rq2) as [t Ht]. congruence. }
  set (w2 := store_log _ _ _) in Hrun.
  set (rq3 := request (critic self) (CallCritique query answer) _) in *.
  destruct (llm env (exchanges w2) rq3) as [text|e] eqn:H3.
  2:{ exists [mkExchange rq1 (Content info); mkExchange rq2 (Content answer);
              mkExchange rq3 (Fails e)].
      cbv zeta. rewrite Hrun. cbn [final].
      repeat match goal with |- _ /\ _ => split end;
        try congruence; try calls_arith.
      - cbn. now rewrite <- !app_assoc.
      - intros Hok. destruct (Hok (exchanges w2) rq3) as [t Ht]. congruence. }
  set (w3 := store_log _ _ _) in Hrun.
  set (st0 := {| current_response := answer; critique := critique_result text;
                 iterations := 1 |}) in Hrun.
  destruct (refine_loop self query answer max_iterations env
              (loop_fuel max_iterations) st0 w3)
    as (new & Hex & Hlogs & Hsearch & Hcount & _ & Hfin & Htotal & Hret);
    [unfold loop_fuel; cbn; lia |].
  cbv zeta in Hex, Hlogs, Hfin, Htotal, Hret.
  set (x1 := mkExchange rq1 (Content info)).
  set (x2 := mkExchange rq2 (Content answer)).
  set (x3 := mkExchange rq3 (Content text)).
  assert (Hlog3 : log_at (interaction_log self) w3
                  = log_at (interaction_log self) w
                      ++ [LogEntry.mk "retriever" (OutText (preview info));
                          LogEntry.mk "synthesizer" (OutText (preview answer));
                          LogEntry.mk "critic" (OutCritique (critique_result text))]).
  { unfold w3. rewrite log_at_store.
    change (log_at (interaction_log self) (record_exchange _ w2))
      with (log_at (interaction_log self) w2).
    unfold w2. rewrite log_at_store.
    change (log_at (interaction_log self) (record_exchange _ w1))
      with (log_at (interaction_log self) w1).
    unfold w1. rewrite log_at_store.
    change (log_at (interaction_log self) (record_exchange _ (tick w)))
      with (log_at (interaction_log self) w).
    now rewrite <- !app_assoc. }
  assert (Hex3 : exchanges w3 = exchanges w ++ [x1; x2; x3]).
  { cbn. now rewrite <- !app_assoc. }
  exists (x1 :: x2 :: x3 :: new). cbv zeta. rewrite Hrun.
  destruct (while _ _ _ st0 env w3) as [st w4|e w4|w4] eqn:Hloop; cbn [final] in *.
  - repeat match goal with |- _ /\ _ => split end.
    + cbn. rewrite Hex, Hex3. now rewrite <- !app_assoc.
    + change (count_calls is_critique (x1 :: x2 :: x3 :: new))
        with (S (count_calls is_critique new)).
      cbn in Hcount. lia.
    + congruence.
    + eauto.
    + intros res w' [= <- <-].
      destruct (Hret st w4 eq_refl)
        as (earlier & Hscores & Hbelow & Hit & Hcrit & Hsyn & Hlast & Hcap & Hstop).
      change (observed_scores (x1 :: x2 :: x3 :: new))
        with (extract_score text :: observed_scores new).
      change (outputs is_synthesize (x1 :: x2 :: x3 :: new))
        with (answer :: outputs is_synthesize new).
      change (outputs is_search (x1 :: x2 :: x3 :: new))
        with (info :: outputs is_search new).
      change (outputs is_critique (x1 :: x2 :: x3 :: new))
        with (text :: outputs is_critique new).
      change (count_calls is_critique (x1 :: x2 :: x3 :: new))
        with (S (count_calls is_critique new)).
      cbn [Result.quality_score Result.iterations Result.final_response
           Result.interaction_log].
      cbn in Hscores, Hit, Hlast, Hcap.
      repeat match goal with |- _ /\ _ => split end.
      * exists earlier. split; assumption.
      * cbn [List.length]. lia.
      * cbn [List.length]. now rewrite Hcrit.
      * cbn [List.length]. now rewrite Hsyn.
      * lia.
      * exact Hstop.
      * rewrite <- Hlast. apply last_cons_default.
      * reflexivity.
      * exists info, answer, text.
        repeat match goal with |- _ /\ _ => split end; try reflexivity.
        -- f_equal. apply outputs_none. exact Hsearch.
        -- change (log_at (interaction_log self) (tick w4))
             with (log_at (interaction_log self) w4).
           unfold log_at at 1. rewrite Hlogs. exact Hlog3.
  - repeat match goal with |- _ /\ _ => split end; try congruence.
    + cbn. rewrite Hex, Hex3. now rewrite <- !app_assoc.
    + change (count_calls is_critique (x1 :: x2 :: x3 :: new))
        with (S (count_calls is_critique new)).
      cbn in Hcount. lia.
    + intros Hok. destruct (Htotal Hok) as (st' & w' & Hc). congruence.
  - exfalso. now apply (Hfin w4).
Qed.

(** [MultiAgentWorkflow()] in an empty store, with no prompt file and no
    model configured, builds the workflow used in the examples. *)
Lemma workflow_0_built client :
  MultiAgentWorkflow_init None (Examples.env_of client) init_world
  = Returned Examples.workflow_0 Examples.world_0.
Proof. vm_compute. reflexivity. Qed.

(** C1. With a cap of at least one, [run] sends the critic at most
    [max_iterations] requests, whatever the client does, and it always
    comes to an end: it returns or raises, and it returns when the client
    never fails.  When it returns, the counter equals the number of scores
    the critic gave, every score but the last was below 7, and the last one
    is at least 7 or the counter equals the cap: the loop stopped on the
    first score of 7 or more, or on reaching the cap. *)
Theorem run_bounded_refinement self query max_iterations env w :
  1 <= max_iterations ->
  exists new,
    exchanges (final (run self query max_iterations env w)) = exchanges w ++ new /\
    Z.of_nat (count_calls is_critique new) <= max_iterations /\
    (forall w', run self query max_iterations env w <> Unfinished w') /\
    ((forall t r, exists text, llm env t r = Content text) ->
     exists res w', run self query max_iterations env w = Returned res w') /\
    (forall res w',
       run self query max_iterations env w = Returned res w' ->
       exists earlier,
         observed_scores new = earlier ++ [Result.quality_score res] /\
         Forall (fun s => s < 7) earlier /\
         count_calls is_critique new = List.length (observed_scores new) /\
         Result.iterations res = 1 + Z.of_nat (List.length earlier) /\
         1 <= Result.iterations res <= max_iterations /\
         (7 <= Result.quality_score res \/ Result.iterations res = max_iterations)).
Proof.
  intros Hmax.
  destruct (run_summary self query max_iterations env w)
    as (new & Hex & Hcount & Hfin & Htotal & Hret).
  cbv zeta in Hex, Hfin, Htotal, Hret.
  exists new. repeat match goal with |- _ /\ _ => split end.
  - exact Hex.
  - lia.
  - exact Hfin.
  - exact Htotal.
  - intros res w' Hrun.
    destruct (Hret res w' Hrun)
      as ((earlier & Hscores & Hbelow) & Hit & Hcrit & _ & Hcap & Hstop & _).
    exists earlier.
    assert (Hlen : List.length (observed_scores new) = S (List.length earlier)).
    { rewrite Hscores, List.length_app. simpl. lia. }
    repeat match goal with |- _ /\ _ => split end;
      try assumption; try lia.
Qed.

Lemma run_bounded_refinement_example :
  1 <= 2 /\
  exists new,
    exchanges (final (run Examples.workflow_0 "q" 2
                        (Examples.env_of (Examples.scripted Examples.five_then_eight))
                        Examples.world_0))
    = exchanges Examples.world_0 ++ new /\
    Z.of_nat (count_calls is_critique new) <= 2.
Proof.
  split; [lia|].
  destruct (run_bounded_refinement Examples.workflow_0 "q" 2
              (Examples.env_of (Examples.scripted Examples.five_then_eight))
              Examples.world_0 ltac:(lia))
    as (new & Hex & Hcount & _).
  exists new. split; assumption.
Defined.

(** C2, at a run of three iterations in which the critic scores 5 each
    time.  The third synthesis is asked to refine the first draft, not the
    second draft that the critique it comes with was written about. *)
Theorem refinement_reuses_first_draft :
  exists res w',
    run Examples.workflow_0 "q" 3
      (Examples.env_of (Examples.scripted Examples.always_five))
      Examples.world_0
    = Returned res w' /\
    Result.iterations res = 3 /\
    outputs is_synthesize (exchanges w')
    = ["first draft"; "second draft"; "third draft"] /\
    outputs is_critique (exchanges w') = Examples.always_five /\
    synthesize_inputs (exchanges w')
    = ["Some facts.";
       refinement_prompt "first draft" (critique_result "Score: 5. Too thin.");
       refinement_prompt "first draft" (critique_result "Score: 5. Still thin.")] /\
    refinement_prompt "first draft" (critique_result "Score: 5. Still thin.")
    <> refinement_prompt "second draft" (critique_result "Score: 5. Still thin.").
Proof.
  do 2 eexists. split; [vm_compute; reflexivity|].
  vm_compute. repeat split. discriminate.
Qed.

(** C3, at a run of two iterations.  The client was asked five times, once
    by the retriever and twice each by the synthesizer and the critic, and
    the log of the result holds three entries: the two requests made inside
    the loop left none. *)
Theorem refinement_calls_not_logged :
  exists res w',
    run Examples.workflow_0 "q" 2
      (Examples.env_of (Examples.scripted Examples.five_then_eight))
      Examples.world_0
    = Returned res w' /\
    count_calls is_search (exchanges w') = 1%nat /\
    count_calls is_synthesize (exchanges w') = 2%nat /\
    count_calls is_critique (exchanges w') = 2%nat /\
    log_at (Result.interaction_log res) w'
    = [LogEntry.mk "retriever" (OutText "Some facts.");
       LogEntry.mk "synthesizer" (OutText "first draft");
       LogEntry.mk "critic" (OutCritique (critique_result "Score: 5. Too thin."))].
Proof.
  do 2 eexists. split; [vm_compute; reflexivity|].
  vm_compute. repeat split.
Qed.

(** C4. Let the client always answer, let its answer to the first request
    of the critic in this run score 5 and its answer to the second score 8.
    Then [run] with a cap of 2 returns after two iterations; the
    synthesizer was asked twice, the second time to refine its first answer
    in the light of the first critique, and the final response is its
    second answer. *)
Theorem run_five_then_eight self query env w :
  (forall t r, exists text, llm env t r = Content text) ->
  (forall t r text,
     llm env t r = Content text ->
     is_critique (mkExchange r (Content text)) = true ->
     count_calls is_critique t = count_calls is_critique (exchanges w) ->
     extract_score text = 5) ->
  (forall t r text,
     llm env t r = Content text ->
     is_critique (mkExchange r (Content text)) = true ->
     count_calls is_critique t = S (count_calls is_critique (exchanges w)) ->
     extract_score text = 8) ->
  exists res w' new info first_answer first_critique second_answer,
    run self query 2 env w = Returned res w' /\
    exchanges w' = exchanges w ++ new /\
    observed_scores new = [5; 8] /\
    outputs is_synthesize new = [first_answer; second_answer] /\
    synthesize_inputs new
    = [info; refinement_prompt first_answer (critique_result first_critique)] /\
    Result.iterations res = 2 /\
    Result.final_response res = second_answer /\
    Result.quality_score res = 8.
Proof.
  intros Hanswers Hfirst Hsecond.
  pose proof (run_cases self query 2 env w) as Hrun. cbv zeta in Hrun.
  set (rq1 := request (retriever self) (CallSearch query) _) in *.
  destruct (Hanswers (exchanges w) rq1) as [info H1]. rewrite H1 in Hrun.
  set (w1 := store_log _ _ _) in Hrun.
  set (rq2 := request (synthesizer self) (CallSynthesize query info) _) in *.
  destruct (Hanswers (exchanges w1) rq2) as [s1 H2]. rewrite H2 in Hrun.
  set (w2 := store_log _ _ _) in Hrun.
  set (rq3 := request (critic self) (CallCritique query s1) _) in *.
  destruct (Hanswers (exchanges w2) rq3) as [c1 H3]. rewrite H3 in Hrun.
  set (w3 := store_log _ _ _) in Hrun.
  assert (Hs1 : extract_score c1 = 5).
  { apply (Hfirst (exchanges w2) rq3 c1 H3); [reflexivity|].
    unfold w2, w1. cbn [exchanges store_log record_exchange tick].
    rewrite !count_calls_app. calls_arith. }
  change (loop_fuel 2) with 1%nat in Hrun. cbn [while] in Hrun.
  set (st0 := {| current_response := s1; critique := critique_result c1;
                 iterations := 1 |}) in Hrun.
  assert (Hc0 : loop_cond 2 st0 = true).
  { unfold loop_cond. cbn. now rewrite Hs1. }
  rewrite Hc0 in Hrun. unfold bind in Hrun.
  rewrite loop_body_cases in Hrun. cbv zeta in Hrun.
  set (rq4 := request (synthesizer self)
                (CallSynthesize query (refinement_prompt s1 (critique st0))) _)
    in Hrun.
  destruct (Hanswers (exchanges w3) rq4) as [s2 H4]. rewrite H4 in Hrun.
  set (w4 := record_exchange (mkExchange rq4 (Content s2)) w3) in Hrun.
  set (rq5 := request (critic self) (CallCritique query s2) _) in Hrun.
  destruct (Hanswers (exchanges w4) rq5) as [c2 H5]. rewrite H5 in Hrun.
  assert (Hs2 : extract_score c2 = 8).
  { apply (Hsecond (exchanges w4) rq5 c2 H5); [reflexivity|].
    unfold w4, w3, w2, w1. cbn [exchanges store_log record_exchange tick].
    rewrite !count_calls_app. calls_arith. }
  set (st1 := {| current_response := s2; critique := critique_result c2;
                 iterations := iterations st0 + 1 |}) in Hrun.
  assert (Hc1 : loop_cond 2 st1 = false).
  { unfold loop_cond. cbn. now rewrite Hs2. }
  rewrite Hc1 in Hrun. unfold ret in Hrun.
  eexists _, _,
    [mkExchange rq1 (Content info); mkExchange rq2 (Content s1);
     mkExchange rq3 (Content c1); mkExchange rq4 (Content s2);
     mkExchange rq5 (Content c2)],
    info, s1, c1, s2.
  split; [exact Hrun|].
  repeat match goal with |- _ /\ _ => split end.
  - unfold w4, w3, w2, w1. cbn. now rewrite <- !app_assoc.
  - change (observed_scores _) with [extract_score c1; extract_score c2].
    now rewrite Hs1, Hs2.
  - reflexivity.
  - reflexivity.
  - reflexivity.
  - reflexivity.
  - cbn. exact Hs2.
Qed.

Lemma run_five_then_eight_example :
  exists res w',
    run Examples.workflow_0 "q" 2
      (Examples.env_of (Examples.scripted Examples.five_then_eight))
      Examples.world_0
    = Returned res w' /\
    Result.iterations res = 2 /\
    Result.final_response res = "second draft".
Proof.
  destruct (run_five_then_eight Examples.workflow_0 "q"
              (Examples.env_of (Examples.scripted Examples.five_then_eight))
              Examples.world_0)
    as (res & w' & new & info & s1 & c1 & s2 & Hrun & Hex & _ & Hout & _ & Hit & Hfinal & _).
  - intros t r. unfold Examples.env_of, Examples.scripted. cbn [llm].
    destruct (req_call r); eexists; reflexivity.
  - intros t r text Hreply Hcritic Hcount.
    unfold Examples.env_of, Examples.scripted in Hreply. cbn [llm] in Hreply.
    unfold is_critique in Hcritic. cbn in Hcritic.
    destruct (req_call r); try discriminate.
    rewrite Hcount in Hreply. injection Hreply as <-. reflexivity.
  - intros t r text Hreply Hcritic Hcount.
    unfold Examples.env_of, Examples.scripted in Hreply. cbn [llm] in Hreply.
    unfold is_critique in Hcritic. cbn in Hcritic.
    destruct (req_call r); try discriminate.
    rewrite Hcount in Hreply. injection Hreply as <-. reflexivity.
  - exists res, w'. split; [exact Hrun|]. split; [exact Hit|].
    rewrite Hfinal.
    assert (Hw : exchanges w' = exchanges (final (run Examples.workflow_0 "q" 2
              (Examples.env_of (Examples.scripted Examples.five_then_eight))
              Examples.world_0))) by now rewrite Hrun.
    rewrite Hex in Hw. vm_compute in Hw. subst new.
    vm_compute in Hout. now injection Hout as _ <-.
Defined.

(** C8. When the client fails on the request of the retriever, [run]
    raises that very failure.  The failed request is the only one made:
    neither the synthesizer nor the critic is called, and the interaction
    log and the agent histories are left as they were. *)
Theorem run_stops_when_retrieval_fails self query max_iterations env w e :
  llm env (exchanges w)
    (request (retriever self) (CallSearch query) (search_prompt query))
  = Fails e ->
  exists w' failed,
    run self query max_iterations env w = Raised e w' /\
    exchanges w' = exchanges w ++ [failed] /\
    is_search failed = true /\
    ex_reply failed = Fails e /\
    count_calls is_synthesize [failed] = 0%nat /\
    count_calls is_critique [failed] = 0%nat /\
    logs w' = logs w /\
    histories w' = histories w.
Proof.
  intros Hfail. rewrite run_cases. cbv zeta. rewrite Hfail.
  do 2 eexists. split; [reflexivity|].
  repeat match goal with |- _ /\ _ => split end; reflexivity.
Qed.

Lemma run_stops_when_retrieval_fails_example :
  exists w',
    run Examples.workflow_0 "q" 2 (Examples.env_of Examples.rate_limited)
      Examples.world_0
    = Raised RateLimitError w' /\
    List.length (exchanges w') = 1%nat /\
    log_at (interaction_log Examples.workflow_0) w' = [].
Proof.
  destruct (run_stops_when_retrieval_fails Examples.workflow_0 "q" 2
              (Examples.env_of Examples.rate_limited) Examples.world_0
              RateLimitError eq_refl)
    as (w' & failed & Hrun & Hex & _ & _ & _ & _ & Hlogs & _).
  exists w'. split; [exact Hrun|]. split.
  - rewrite Hex. reflexivity.
  - unfold log_at. rewrite Hlogs. reflexivity.
Defined.

(** C10. Two calls of [run] on the same workflow, one after the other.
    Both results point at the list of the workflow itself.  Each call
    appends three entries to it, so what the second result shows is the
    log as it was before the first call, then the entries of the first
    call, then those of the second; and the first result, read after the
    second call, shows the same. *)
Theorem interaction_log_accumulates self env w
  query1 max_iterations1 res1 w1 query2 max_iterations2 res2 w2 :
  run self query1 max_iterations1 env w = Returned res1 w1 ->
  run self query2 max_iterations2 env w1 = Returned res2 w2 ->
  Result.interaction_log res1 = interaction_log self /\
  Result.interaction_log res2 = interaction_log self /\
  exists added1 added2,
    List.length added1 = 3%nat /\
    List.length added2 = 3%nat /\
    log_at (Result.interaction_log res1) w1
    = log_at (interaction_log self) w ++ added1 /\
    log_at (Result.interaction_log res2) w2
    = log_at (interaction_log self) w ++ added1 ++ added2 /\
    log_at (Result.interaction_log res1) w2
    = log_at (Result.interaction_log res2) w2.
Proof.
  intros Hrun1 Hrun2.
  destruct (run_summary self query1 max_iterations1 env w)
    as (new1 & _ & _ & _ & _ & Hret1).
  destruct (run_summary self query2 max_iterations2 env w1)
    as (new2 & _ & _ & _ & _ & Hret2).
  cbv zeta in Hret1, Hret2.
  destruct (Hret1 res1 w1 Hrun1)
    as (_ & _ & _ & _ & _ & _ & _ & Hloc1 & i1 & a1 & t1 & _ & _ & _ & Hlog1).
  destruct (Hret2 res2 w2 Hrun2)
    as (_ & _ & _ & _ & _ & _ & _ & Hloc2 & i2 & a2 & t2 & _ & _ & _ & Hlog2).
  split; [exact Hloc1|]. split; [exact Hloc2|].
  exists [LogEntry.mk "retriever" (OutText (preview i1));
          LogEntry.mk "synthesizer" (OutText (preview a1));
          LogEntry.mk "critic" (OutCritique (critique_result t1))],
         [LogEntry.mk "retriever" (OutText (preview i2));
          LogEntry.mk "synthesizer" (OutText (preview a2));
          LogEntry.mk "critic" (OutCritique (critique_result t2))].
  rewrite Hloc1, Hloc2.
  split; [|split; [|split; [exact Hlog1|split; [|reflexivity]]]].
  - reflexivity.
  - reflexivity.
  - rewrite Hlog2, Hlog1. now rewrite <- app_assoc.
Qed.

Lemma interaction_log_accumulates_example :
  exists res1 w1 res2 w2,
    run Examples.workflow_0 "q" 2
      (Examples.env_of (Examples.scripted Examples.five_then_eight))
      Examples.world_0
    = Returned res1 w1 /\
    run Examples.workflow_0 "again" 2
      (Examples.env_of (Examples.scripted Examples.five_then_eight)) w1
    = Returned res2 w2 /\
    List.length (log_at (Result.interaction_log res1) w1) = 3%nat /\
    List.length (log_at (Result.interaction_log res2) w2) = 6%nat.
Proof.
  destruct (run Examples.workflow_0 "q" 2
              (Examples.env_of (Examples.scripted Examples.five_then_eight))
              Examples.world_0) as [res1 w1|e w1|w1] eqn:Hrun1;
    [|vm_compute in Hrun1; discriminate..].
  destruct (run Examples.workflow_0 "again" 2
              (Examples.env_of (Examples.scripted Examples.five_then_eight))
              w1) as [res2 w2|e w2|w2] eqn:Hrun2.
  - exists res1, w1, res2, w2. split; [reflexivity|]. split; [exact Hrun2|].
    destruct (interaction_log_accumulates _ _ _ _ _ _ _ _ _ _ _ Hrun1 Hrun2)
      as (_ & _ & added1 & added2 & Hlen1 & Hlen2 & Hlog1 & Hlog2 & _).
    rewrite Hlog1, Hlog2, !List.length_app, Hlen1, Hlen2.
    split; reflexivity.
  - vm_compute in Hrun1. injection Hrun1 as _ <-.
    vm_compute in Hrun2. discriminate.
  - vm_compute in Hrun1. injection Hrun1 as _ <-.
    vm_compute in Hrun2. discriminate.
Defined.

(** The preview kept in the log: a text of more than 200 characters is cut
    to its first 200 characters followed by three dots, any other text is
    kept whole. *)
Lemma preview_cases (s : string) :
  (200 < len s ->
   preview s = str_slice_to 200 s +:+ "..." /\
   String.length (str_slice_to 200 s) = 200%nat) /\
  (len s <= 200 -> preview s = s).
Proof.
  unfold preview. split; intros H.
  - destruct (Z.gtb_spec (len s) 200) as [_|Hle]; [|lia].
    split; [reflexivity|].
    unfold len in H. unfold str_slice_to.
    assert (Hlen : forall n t, (n <= String.length t)%nat ->
                               String.length (String.substring 0 n t) = n).
    { induction n as [|n IHn]; intros [|c t] Hn; simpl in *;
        try lia; try reflexivity.
      now rewrite IHn by lia. }
    apply Hlen. lia.
  - destruct (Z.gtb_spec (len s) 200) as [Hgt|_]; [lia|reflexivity].
Qed.

End WorkflowFacts.

(** * Further properties *)

(** ** The message history, continued *)

Section HistoryFacts.
Import Py Messages.

Lemma slice_from_nil {A} (start : Z) : slice_from start (@nil A) = [].
Proof. unfold slice_from. destruct (start <? 0); apply skipn_nil. Qed.

Lemma get_recent_messages_slice (h : MessageHistory) (n : Z) :
  get_recent_messages h n = slice_from (- n) (messages h).
Proof.
  unfold get_recent_messages.
  destruct (messages h); [now rewrite slice_from_nil | reflexivity].
Qed.

(** X1. For a positive [n], [get_recent_messages] returns the end of the
    history, in order: the last [n] messages, or all of them when there are
    fewer. *)
Theorem recent_messages_last (h : MessageHistory) (n : Z) :
  0 < n ->
  exists earlier,
    messages h = earlier ++ get_recent_messages h n /\
    List.length (get_recent_messages h n)
    = Nat.min (Z.to_nat n) (List.length (messages h)).
Proof.
  intros Hn. rewrite get_recent_messages_slice.
  destruct (slice_from_suffix (Z.to_nat n) (messages h) ltac:(lia))
    as [Hsplit Hlen].
  rewrite Z2Nat.id in Hsplit, Hlen by lia.
  eexists. split; [exact Hsplit | exact Hlen].
Qed.

Lemma recent_messages_last_example :
  0 < 1 /\
  exists earlier,
    messages (appended [Examples.query_1; Cases.reply_1])
    = earlier ++ get_recent_messages (appended [Examples.query_1; Cases.reply_1]) 1 /\
    List.length (get_recent_messages (appended [Examples.query_1; Cases.reply_1]) 1)
    = Nat.min (Z.to_nat 1)
        (List.length (messages (appended [Examples.query_1; Cases.reply_1]))).
Proof.
  split; [lia|].
  apply (recent_messages_last (appended [Examples.query_1; Cases.reply_1]) 1).
  lia.
Defined.

(** X2. For [n] at most zero [get_recent_messages] does not take from the
    end: it drops the first [-n] messages, so that asking for the 0 most
    recent messages returns the whole history. *)
Theorem recent_messages_nonpositive (h : MessageHistory) (n : Z) :
  n <= 0 ->
  get_recent_messages h n = skipn (Z.to_nat (- n)) (messages h) /\
  (n = 0 -> get_recent_messages h n = messages h).
Proof.
  intros Hn.
  assert (Hskip : get_recent_messages h n = skipn (Z.to_nat (- n)) (messages h)).
  { rewrite get_recent_messages_slice. unfold slice_from.
    destruct (Z.ltb_spec (- n) 0) as [Hneg|_]; [lia | reflexivity]. }
  split; [exact Hskip|].
  intros ->. rewrite Hskip. reflexivity.
Qed.

Lemma recent_messages_nonpositive_example :
  0 <= 0 /\
  get_recent_messages (appended [Examples.query_1; Cases.reply_1]) 0
  = [Examples.query_1; Cases.reply_1].
Proof.
  split; [lia|].
  apply (recent_messages_nonpositive
           (appended [Examples.query_1; Cases.reply_1]) 0 ltac:(lia)).
  reflexivity.
Defined.

(** X3. Messages older than the last ten have no influence on the context
    view. *)
Theorem old_messages_invisible (old recent : list AgentMessage) :
  List.length recent = 10%nat ->
  get_conversation_context {| messages := old ++ recent |}
  = get_conversation_context {| messages := recent |}.
Proof.
  intros Hlen. rewrite !context_of_messages. cbn [messages].
  pose proof (slice_from_last 10 (old ++ recent) ltac:(lia)) as H1.
  pose proof (slice_from_last 10 recent ltac:(lia)) as H2.
  change (- Z.of_nat 10) with (-10) in H1, H2. rewrite H1, H2.
  rewrite List.length_app, Hlen.
  replace (List.length old + 10 - 10)%nat with (List.length old + 0)%nat by lia.
  rewrite skipn_app, Nat.add_0_r, skipn_all.
  replace (List.length old - List.length old)%nat with 0%nat by lia.
  replace (10 - 10)%nat with 0%nat by lia.
  cbn [skipn app].
  destruct recent as [|m recent]; [discriminate|].
  destruct old; reflexivity.
Qed.

Lemma old_messages_invisible_example :
  get_conversation_context (Cases.numbered_history 12)
  = get_conversation_context {| messages := map Cases.numbered (seq 2 10) |}.
Proof.
  apply (old_messages_invisible
           (map Cases.numbered (seq 0 2)) (map Cases.numbered (seq 2 10))).
  reflexivity.
Defined.

Lemma context_after_append (h : MessageHistory) (m : AgentMessage) :
  get_conversation_context (add_message h m)
  = "Previous conversation:" +:+ nl
      +:+ transcript_lines (slice_from (-9) (messages h) ++ [m]).
Proof.
  rewrite context_of_messages. cbn [add_message messages].
  pose proof (slice_from_last 10 (messages h ++ [m]) ltac:(lia)) as H1.
  pose proof (slice_from_last 9 (messages h) ltac:(lia)) as H2.
  change (- Z.of_nat 10) with (-10) in H1.
  change (- Z.of_nat 9) with (-9) in H2. rewrite H1, H2.
  rewrite List.length_app. cbn [List.length].
  replace (List.length (messages h) + 1 - 10)%nat
    with (List.length (messages h) - 9)%nat by lia.
  rewrite skipn_app.
  replace (List.length (messages h) - 9 - List.length (messages h))%nat
    with 0%nat by lia.
  cbn [skipn].
  destruct (messages h); reflexivity.
Qed.

(** X4. The window slides by one on an append: the view of a history that
    has just received [m] shows the last nine messages it held before,
    followed by [m]. *)
Theorem context_view_slides (h : MessageHistory) (m : AgentMessage) :
  get_conversation_context (add_message h m)
  = "Previous conversation:" +:+ nl
      +:+ transcript_lines (slice_from (-9) (messages h) ++ [m]).
Proof. apply context_after_append. Qed.

(** X5. The sentinel is unambiguous: the context view equals it exactly
    when the history is empty. *)
Theorem sentinel_iff_empty (h : MessageHistory) :
  get_conversation_context h = "No previous conversation." <-> messages h = [].
Proof.
  rewrite context_of_messages.
  destruct (messages h) as [|m ms]; split; intros H;
    try reflexivity; discriminate H.
Qed.

End HistoryFacts.

(** ** Agents, continued *)

Section AgentFacts.
Import Py Messages Runtime Agents.

Lemma append_cons (c : ascii) (a b : string) :
  String c a +:+ b = String c (a +:+ b).
Proof. reflexivity. Qed.

Lemma slice_to_app (a b : string) (n : nat) :
  (String.length a <= n)%nat ->
  str_slice_to n (a +:+ b) = a +:+ str_slice_to (n - String.length a) b.
Proof.
  unfold str_slice_to. revert n.
  induction a as [|c a IH]; intros n Hn.
  - cbn [String.length]. now rewrite Nat.sub_0_r.
  - destruct n as [|n]; cbn [String.length] in *; [lia|].
    rewrite !append_cons. cbn [String.substring].
    rewrite IH by lia. reflexivity.
Qed.

Lemma slice_to_all (a : string) (n : nat) :
  (String.length a <= n)%nat -> str_slice_to n a = a.
Proof.
  unfold str_slice_to. revert n.
  induction a as [|c a IH]; intros n Hn.
  - destruct n; reflexivity.
  - destruct n as [|n]; cbn [String.length] in *; [lia|].
    cbn [String.substring]. now rewrite IH by lia.
Qed.

Lemma slice_to_zero (b : string) : str_slice_to 0 b = "".
Proof. unfold str_slice_to. destruct b; reflexivity. Qed.

Lemma prefix_app (a b : string) : String.prefix a (a +:+ b) = true.
Proof.
  induction a as [|c a IH]; [destruct b; reflexivity|].
  rewrite append_cons. cbn [String.prefix].
  destruct (ascii_dec c c); [exact IH | congruence].
Qed.

Lemma str_in_app (needle a b : string) :
  str_in needle (a +:+ needle +:+ b) = true.
Proof.
  induction a as [|c a IH].
  - change ("" +:+ needle +:+ b) with (needle +:+ b).
    destruct (needle +:+ b) eqn:E; cbn [str_in];
      rewrite <- E, prefix_app; reflexivity.
  - rewrite append_cons. cbn [str_in]. rewrite IH. apply orb_true_r.
Qed.

(** X6. Only the first fifty characters of a critique bear on its score:
    whatever follows them changes nothing. *)
Theorem score_reads_fifty_characters (head rest : string) :
  String.length head = 50%nat ->
  extract_score (head +:+ rest) = extract_score head.
Proof.
  intros Hlen. unfold extract_score.
  rewrite slice_to_app by lia. rewrite Hlen, Nat.sub_diag, slice_to_zero.
  rewrite append_empty_r. rewrite (slice_to_all head) by lia. reflexivity.
Qed.

Lemma score_reads_fifty_characters_example :
  extract_score ("The answer covers the ground, but unevenly. Score:" +:+ " 9")
  = extract_score "The answer covers the ground, but unevenly. Score:".
Proof.
  apply (score_reads_fifty_characters
           "The answer covers the ground, but unevenly. Score:" " 9").
  reflexivity.
Defined.

(** X7. A critique that writes "10" anywhere in its first fifty characters
    is scored 10, whatever else it says: a score given out of ten, such as
    "6/10", counts as 10. *)
Theorem ten_wins (before after : string) :
  (String.length before <= 48)%nat ->
  extract_score (before +:+ "10" +:+ after) = 10.
Proof.
  intros Hlen. unfold extract_score.
  rewrite slice_to_app by lia.
  change ("10" +:+ after) with (String "1" (String "0" after)).
  unfold str_slice_to at 1.
  destruct (50 - String.length before)%nat as [|[|n]] eqn:Hn; [lia | lia |].
  cbn [String.substring].
  change (String "1" (String "0" (String.substring 0 n after)))
    with ("10" +:+ String.substring 0 n after).
  now rewrite str_in_app.
Qed.

Lemma ten_wins_example :
  (String.length "Score: 6/" <= 48)%nat /\
  extract_score ("Score: 6/" +:+ "10" +:+ ". Misses the second half.") = 10.
Proof.
  split; [vm_compute; lia|].
  apply (ten_wins "Score: 6/" ". Misses the second half.").
  vm_compute. lia.
Defined.

End AgentFacts.

(** ** Agents: processing, role calls and construction *)

Section ProcessFacts.
Import Py Messages Runtime Agents Workflow.

(** X8. [process] stores the incoming message before it builds the prompt,
    so the client never sees the empty-history sentinel: whether it answers
    or fails, the one request it receives carries the system prompt of the
    agent and a transcript that ends with the incoming message, ahead of
    that message given once more as the current one. *)
Theorem process_sends_transcript env w self message :
  exists sent,
    exchanges (final (process self message env w)) = exchanges w ++ [sent] /\
    req_system (ex_request sent) = system_prompt self /\
    req_prompt (ex_request sent)
    = "Previous conversation:" +:+ nl
        +:+ transcript_lines
              (slice_from (-9) (messages (history_at (memory self) w)) ++ [message])
        +:+ nl +:+ nl +:+ "Current message: " +:+ content message
        +:+ nl +:+ nl +:+ "Your response:".
Proof.
  unfold process, bind, history_add, history_context.
  rewrite history_at_store. rewrite context_after_append.
  unfold invoke, now, ret.
  match goal with
  | |- context [llm env ?t ?r] => destruct (llm env t r) as [text|e]
  end; cbn [final]; eexists; (split; [reflexivity|]); (split; [reflexivity|]);
    cbn [ex_request req_prompt request]; unfold process_prompt;
    now rewrite !append_assoc.
Qed.

(** X9. When the client fails, [process] raises that failure and stores no
    response: the history of the agent is left with the incoming message
    as its last entry, and the other histories and the logs are as they
    were. *)
Theorem process_failure_keeps_incoming env w self message e :
  llm env (exchanges w)
    (request self (CallProcess (agent_id self) message)
       (process_prompt
          (get_conversation_context
             (add_message (history_at (memory self) w) message))
          message))
  = Fails e ->
  exists w',
    process self message env w = Raised e w' /\
    messages (history_at (memory self) w')
    = messages (history_at (memory self) w) ++ [message] /\
    (forall l, l <> memory self -> history_at l w' = history_at l w) /\
    logs w' = logs w.
Proof.
  intros Hllm. unfold process, bind, history_add, history_context.
  rewrite history_at_store.
  erewrite invoke_fails by exact Hllm.
  eexists. split; [reflexivity|]. split; [|split].
  - unfold record_exchange, history_at. simpl. now rewrite lookup_insert_eq.
  - intros l Hl. unfold record_exchange, history_at. simpl.
    now rewrite lookup_insert_ne by congruence.
  - reflexivity.
Qed.

Lemma process_failure_keeps_incoming_example :
  exists w',
    process (Examples.agent_of "critic" 3%positive) Examples.query_1
      (Examples.env_of Examples.rate_limited) Examples.world_0
    = Raised RateLimitError w' /\
    messages (history_at 3%positive w') = [Examples.query_1].
Proof.
  destruct (process_failure_keeps_incoming
              (Examples.env_of Examples.rate_limited) Examples.world_0
              (Examples.agent_of "critic" 3%positive) Examples.query_1
              RateLimitError eq_refl)
    as (w' & Hrun & Hmem & _).
  exists w'. split; [exact Hrun | exact Hmem].
Defined.

(** X10. [search], [synthesize] and [critique] go to the client once and
    leave every history and every log as it was, whether the client answers
    or fails: the memory of the agent plays no part in them. *)
Theorem role_calls_bypass_memory env w self query info response :
  (exists sent,
     exchanges (final (search self query env w)) = exchanges w ++ [sent] /\
     histories (final (search self query env w)) = histories w /\
     logs (final (search self query env w)) = logs w) /\
  (exists sent,
     exchanges (final (synthesize self query info env w)) = exchanges w ++ [sent] /\
     histories (final (synthesize self query info env w)) = histories w /\
     logs (final (synthesize self query info env w)) = logs w) /\
  (exists sent,
     exchanges (final (Agents.critique self query response env w)) = exchanges w ++ [sent] /\
     histories (final (Agents.critique self query response env w)) = histories w /\
     logs (final (Agents.critique self query response env w)) = logs w).
Proof.
  unfold search, synthesize, Agents.critique, bind, invoke, ret.
  repeat split;
    match goal with
    | |- context [llm env ?t ?r] => destruct (llm env t r) as [text|e]
    end; cbn [final]; eexists; repeat split; reflexivity.
Qed.


Lemma BaseAgent_init_returns agent_id role model env w :
  BaseAgent_init agent_id role model env w
  = Returned
      {| Agents.agent_id := agent_id;
         Agents.role := role;
         model_name := resolve_model_name model env;
         memory := fresh (dom (histories w));
         system_prompt := _load_system_prompt role env |}
      (store_history (fresh (dom (histories w))) MessageHistory_init w).
Proof. reflexivity. Qed.


End ProcessFacts.

(** ** The orchestrator, continued *)

Section RunFacts.
Import Py Messages Runtime Agents Workflow.

Ltac count_arith := unfold count_calls in *; simpl in *; lia.

(** The exchanges of the refinement loop, one by one: what they leave
    alone, how many they are, and what each synthesis is given. *)
Lemma refine_loop_trace self query synthesized_response max_iterations env :
  forall fuel st w,
    max_iterations - iterations st <= Z.of_nat fuel ->
    exists new,
      let o := while fuel (loop_cond max_iterations)
                 (loop_body self query synthesized_response) st env w in
      exchanges (final o) = exchanges w ++ new /\
      histories (final o) = histories w /\
      logs (final o) = logs w /\
      clock_reads (final o) = clock_reads w /\
      Z.of_nat (List.length new) <= 2 * Z.max 0 (max_iterations - iterations st) /\
      (forall st' w', o = Returned st' w' ->
         List.length new = (2 * List.length (observed_scores new))%nat /\
         List.length (outputs (fun _ => true) new) = List.length new /\
         critique st'
         = List.last (map critique_result (outputs is_critique new)) (critique st) /\
         synthesize_inputs new
         = map (refinement_prompt synthesized_response)
             (removelast (critique st :: map critique_result (outputs is_critique new)))).
Proof.
  induction fuel as [|fuel IH]; intros st w Hfuel;
    destruct (loop_cond max_iterations st) eqn:Hcond.
  2, 4: (exists []; cbn [while]; rewrite Hcond; unfold ret; cbn [final];
         rewrite app_nil_r;
         repeat match goal with |- _ /\ _ => split end;
         [ reflexivity | reflexivity | reflexivity | reflexivity | simpl; lia | ];
         intros st' w' [= <- <-]; repeat split).
  - apply loop_cond_true in Hcond. lia.
  - pose proof (proj1 (loop_cond_true _ _) Hcond) as [Hlow Hlt].
    assert (Hstep :
      while (S fuel) (loop_cond max_iterations)
        (loop_body self query synthesized_response) st env w
      = match loop_body self query synthesized_response st env w with
        | Returned st1 w1 =>
            while fuel (loop_cond max_iterations)
              (loop_body self query synthesized_response) st1 env w1
        | Raised e w1 => Raised e w1
        | Unfinished w1 => Unfinished w1
        end).
    { cbn [while]. rewrite Hcond. reflexivity. }
    rewrite loop_body_cases in Hstep. cbv zeta in Hstep.
    set (info := refinement_prompt synthesized_response (critique st)) in *.
    set (rq1 := request (synthesizer self) (CallSynthesize query info) _) in *.
    destruct (llm env (exchanges w) rq1) as [s|e] eqn:H1.
    2:{ exists [mkExchange rq1 (Fails e)]. cbv zeta. rewrite Hstep. cbn [final].
        repeat match goal with |- _ /\ _ => split end;
          try reflexivity; try congruence.
        cbn [List.length]. lia. }
    set (w1 := record_exchange (mkExchange rq1 (Content s)) w) in *.
    set (rq2 := request (critic self) (CallCritique query s) _) in *.
    destruct (llm env (exchanges w1) rq2) as [c|e] eqn:H2.
    2:{ exists [mkExchange rq1 (Content s); mkExchange rq2 (Fails e)].
        cbv zeta. rewrite Hstep. cbn [final].
        repeat match goal with |- _ /\ _ => split end;
          try reflexivity; try congruence.
        - cbn. now rewrite <- app_assoc.
        - cbn [List.length]. lia. }
    set (st1 := {| current_response := s; critique := critique_result c;
                   iterations := iterations st + 1 |}) in *.
    set (w2 := record_exchange (mkExchange rq2 (Content c)) w1) in *.
    destruct (IH st1 w2) as (new & Hex & Hhist & Hlogs & Hclock & Hlen & Hret);
      [cbn; lia |].
    cbv zeta in Hex, Hhist, Hlogs, Hclock, Hret.
    exists (mkExchange rq1 (Content s) :: mkExchange rq2 (Content c) :: new).
    cbv zeta. rewrite Hstep.
    repeat match goal with |- _ /\ _ => split end.
    + rewrite Hex. cbn. now rewrite <- !app_assoc.
    + rewrite Hhist. reflexivity.
    + rewrite Hlogs. reflexivity.
    + rewrite Hclock. reflexivity.
    + cbn [List.length]. cbn in Hlen. lia.
    + intros st' w' Hrun.
      destruct (Hret st' w' Hrun) as (Hpairs & Hall & Hcrit & Hinputs).
      change (observed_scores
                (mkExchange rq1 (Content s) :: mkExchange rq2 (Content c) :: new))
        with (extract_score c :: observed_scores new).
      change (outputs is_critique
                (mkExchange rq1 (Content s) :: mkExchange rq2 (Content c) :: new))
        with (c :: outputs is_critique new).
      change (outputs (fun _ => true)
                (mkExchange rq1 (Content s) :: mkExchange rq2 (Content c) :: new))
        with (s :: c :: outputs (fun _ => true) new).
      change (synthesize_inputs
                (mkExchange rq1 (Content s) :: mkExchange rq2 (Content c) :: new))
        with (info :: synthesize_inputs new).
      cbn [critique st1] in Hcrit, Hinputs.
      repeat match goal with |- _ /\ _ => split end.
      * cbn [List.length]. lia.
      * cbn [List.length]. now rewrite Hall.
      * rewrite Hcrit. cbn [map]. symmetry. apply last_cons_default.
      * rewrite Hinputs. reflexivity.
Qed.

Lemma last_map {A B} (f : A -> B) (l : list A) (d : A) :
  List.last (map f l) (f d) = f (List.last l d).
Proof.
  induction l as [|a l IH]; [reflexivity|].
  destruct l as [|b l]; [reflexivity|]. exact IH.
Qed.

Lemma removelast_map {A B} (f : A -> B) (l : list A) :
  removelast (map f l) = map f (removelast l).
Proof.
  induction l as [|a l IH]; [reflexivity|].
  destruct l as [|b l]; [reflexivity|].
  cbn [map removelast] in *. now rewrite IH.
Qed.

(** The exchanges of a whole call of [run], and what the call leaves in
    the store on each way out. *)
Lemma run_trace self query max_iterations env w :
  exists new,
    let o := run self query max_iterations env w in
    exchanges (final o) = exchanges w ++ new /\
    histories (final o) = histories w /\
    (forall l, l <> interaction_log self -> logs (final o) !! l = logs w !! l) /\
    (exists added,
       log_at (interaction_log self) (final o)
       = log_at (interaction_log self) w ++ added /\
       List.length added = Nat.min 3 (List.length (outputs (fun _ => true) new))) /\
    Z.of_nat (List.length new) <= 1 + 2 * Z.max 1 max_iterations /\
    (forall res w', o = Returned res w' ->
       Z.of_nat (List.length new) = 1 + 2 * Result.iterations res /\
       List.length (outputs (fun _ => true) new) = List.length new /\
       Result.query res = query /\
       Result.quality_score res = extract_score (Result.critique res) /\
       List.last (outputs is_critique new) "" = Result.critique res /\
       exists info answer,
         outputs is_search new = [info] /\
         List.head (outputs is_synthesize new) = Some answer /\
         synthesize_inputs new
         = info :: map (fun text => refinement_prompt answer (critique_result text))
                     (removelast (outputs is_critique new))).
Proof.
  pose proof (run_cases self query max_iterations env w) as Hrun.
  cbv zeta in Hrun.
  set (log := interaction_log self) in *.
  set (rq1 := request (retriever self) (CallSearch query) _) in *.
  destruct (llm env (exchanges w) rq1) as [info|e] eqn:H1.
  2:{ exists [mkExchange rq1 (Fails e)]. cbv zeta. rewrite Hrun. cbn [final].
      repeat match goal with |- _ /\ _ => split end;
        try reflexivity; try congruence.
      - exists []. split; [now rewrite app_nil_r | reflexivity].
      - cbn [List.length]. lia. }
  set (e1 := LogEntry.mk "retriever" (OutText (preview info))) in *.
  set (w1 := store_log _ _ _) in Hrun.
  set (rq2 := request (synthesizer self) (CallSynthesize query info) _) in *.
  assert (Hlog1 : log_at log w1 = log_at log w ++ [e1]).
  { unfold w1. now rewrite log_at_store. }
  assert (Hoth1 : forall l, l <> log -> logs w1 !! l = logs w !! l).
  { intros l Hl. unfold w1. cbn [store_log logs record_exchange tick].
    now rewrite lookup_insert_ne by congruence. }
  destruct (llm env (exchanges w1) rq2) as [answer|e] eqn:H2.
  2:{ exists [mkExchange rq1 (Content info); mkExchange rq2 (Fails e)].
      cbv zeta. rewrite Hrun. cbn [final].
      repeat match goal with |- _ /\ _ => split end;
        try reflexivity; try congruence.
      - cbn. now rewrite <- app_assoc.
      - exact Hoth1.
      - exists [e1]. split; [exact Hlog1 | reflexivity].
      - cbn [List.length]. lia. }
  set (e2 := LogEntry.mk "synthesizer" (OutText (preview answer))) in *.
  set (w2 := store_log _ _ _) in Hrun.
  set (rq3 := request (critic self) (CallCritique query answer) _) in *.
  assert (Hlog2 : log_at log w2 = log_at log w ++ [e1; e2]).
  { unfold w2. rewrite log_at_store.
    change (log_at log (record_exchange _ w1)) with (log_at log w1).
    rewrite Hlog1. now rewrite <- app_assoc. }
  assert (Hoth2 : forall l, l <> log -> logs w2 !! l = logs w !! l).
  { intros l Hl. unfold w2. cbn [store_log logs record_exchange].
    rewrite lookup_insert_ne by congruence. now apply Hoth1. }
  destruct (llm env (exchanges w2) rq3) as [text|e] eqn:H3.
  2:{ exists [mkExchange rq1 (Content info); mkExchange rq2 (Content answer);
              mkExchange rq3 (Fails e)].
      cbv zeta. rewrite Hrun. cbn [final].
      repeat match goal with |- _ /\ _ => split end;
        try reflexivity; try congruence.
      - cbn. now rewrite <- !app_assoc.
      - exact Hoth2.
      - exists [e1; e2]. split; [exact Hlog2 | reflexivity].
      - cbn [List.length]. lia. }
  set (e3 := LogEntry.mk "critic" (OutCritique (critique_result text))) in *.
  set (w3 := store_log _ _ _) in Hrun.
  set (st0 := {| current_response := answer; critique := critique_result text;
                 iterations := 1 |}) in Hrun.
  assert (Hlog3 : log_at log w3 = log_at log w ++ [e1; e2; e3]).
  { unfold w3. rewrite log_at_store.
    change (log_at log (record_exchange _ w2)) with (log_at log w2).
    rewrite Hlog2. now rewrite <- app_assoc. }
  assert (Hoth3 : forall l, l <> log -> logs w3 !! l = logs w !! l).
  { intros l Hl. unfold w3. cbn [store_log logs record_exchange].
    rewrite lookup_insert_ne by congruence. now apply Hoth2. }
  destruct (refine_loop_trace self query answer max_iterations env
              (loop_fuel max_iterations) st0 w3)
    as (new & Hex & Hhist & Hlogs & _ & Hlen & Hret);
    [unfold loop_fuel; cbn; lia |].
  destruct (refine_loop self query answer max_iterations env
              (loop_fuel max_iterations) st0 w3)
    as (new' & Hex' & _ & Hsearch & _ & _ & Hfin & _ & Hret');
    [unfold loop_fuel; cbn; lia |].
  cbv zeta in Hex, Hhist, Hlogs, Hret, Hex', Hfin, Hret'.
  assert (new' = new) as -> by (rewrite Hex in Hex'; now apply app_inv_head in Hex').
  clear Hex'.
  set (x1 := mkExchange rq1 (Content info)).
  set (x2 := mkExchange rq2 (Content answer)).
  set (x3 := mkExchange rq3 (Content text)).
  assert (Hex3 : exchanges w3 = exchanges w ++ [x1; x2; x3]).
  { cbn. now rewrite <- !app_assoc. }
  assert (Hthree : (3 <= List.length (outputs (fun _ => true) (x1 :: x2 :: x3 :: new)))%nat).
  { change (outputs (fun _ => true) (x1 :: x2 :: x3 :: new))
      with (info :: answer :: text :: outputs (fun _ => true) new).
    cbn [List.length]. lia. }
  exists (x1 :: x2 :: x3 :: new). cbv zeta. rewrite Hrun.
  destruct (while _ _ _ st0 env w3) as [st w4|e w4|w4] eqn:Hloop; cbn [final] in *.
  - repeat match goal with |- _ /\ _ => split end.
    + cbn. rewrite Hex, Hex3. now rewrite <- !app_assoc.
    + cbn. rewrite Hhist. reflexivity.
    + intros l Hl. cbn. rewrite Hlogs. now apply Hoth3.
    + exists [e1; e2; e3]. split.
      * change (log_at log (tick w4)) with (log_at log w4).
        unfold log_at at 1. rewrite Hlogs. exact Hlog3.
      * cbn [List.length]. lia.
    + cbn [List.length]. cbn in Hlen. lia.
    + intros res w' [= <- <-].
      destruct (Hret st w4 eq_refl) as (Hpairs & Hall & Hcrit & Hinputs).
      destruct (Hret' st w4 eq_refl)
        as (earlier & _ & _ & Hit & _ & _ & _ & _ & _).
      cbn [Result.quality_score Result.iterations Result.query Result.critique].
      cbn in Hit.
      change (outputs is_critique (x1 :: x2 :: x3 :: new))
        with (text :: outputs is_critique new).
      change (outputs (fun _ => true) (x1 :: x2 :: x3 :: new))
        with (info :: answer :: text :: outputs (fun _ => true) new).
      assert (Hlast : critique st
                      = critique_result
                          (List.last (text :: outputs is_critique new) "")).
      { rewrite Hcrit. cbn [critique st0].
        rewrite last_map. now rewrite last_cons_default. }
      repeat match goal with |- _ /\ _ => split end.
      * cbn [List.length]. lia.
      * cbn [List.length]. now rewrite Hall.
      * reflexivity.
      * rewrite Hlast. reflexivity.
      * rewrite Hlast. reflexivity.
      * exists info, answer.
        repeat match goal with |- _ /\ _ => split end.
        -- change (outputs is_search (x1 :: x2 :: x3 :: new))
             with (info :: outputs is_search new).
           f_equal. now apply outputs_none.
        -- reflexivity.
        -- change (synthesize_inputs (x1 :: x2 :: x3 :: new))
             with (info :: synthesize_inputs new).
           rewrite Hinputs. cbn [critique st0].
           change (critique_result text
                   :: map critique_result (outputs is_critique new))
             with (map critique_result (text :: outputs is_critique new)).
           rewrite removelast_map, map_map. reflexivity.
  - repeat match goal with |- _ /\ _ => split end; try congruence.
    + cbn. rewrite Hex, Hex3. now rewrite <- !app_assoc.
    + rewrite Hhist. reflexivity.
    + intros l Hl. rewrite Hlogs. now apply Hoth3.
    + exists [e1; e2; e3]. split.
      * unfold log_at at 1. rewrite Hlogs. exact Hlog3.
      * cbn [List.length]. lia.
    + cbn [List.length]. cbn in Hlen. lia.
  - exfalso. now apply (Hfin w4).
Qed.

(** X13. Whatever the client does, [run] leaves the histories of all
    agents as they were, and changes no list but the interaction log of the
    workflow it is called on. *)
Theorem run_leaves_histories self query max_iterations env w :
  histories (final (run self query max_iterations env w)) = histories w /\
  (forall l, l <> interaction_log self ->
     log_at l (final (run self query max_iterations env w)) = log_at l w).
Proof.
  destruct (run_trace self query max_iterations env w)
    as (new & _ & Hhist & Hlogs & _).
  cbv zeta in Hhist, Hlogs. split; [exact Hhist|].
  intros l Hl. unfold log_at. now rewrite Hlogs.
Qed.

(** X14. With a cap of at least one, [run] sends the client at most
    [1 + 2 * max_iterations] requests.  When it returns, every request was
    answered and their number is one plus twice the iterations reported. *)
Theorem run_request_budget self query max_iterations env w :
  1 <= max_iterations ->
  exists new,
    exchanges (final (run self query max_iterations env w)) = exchanges w ++ new /\
    Z.of_nat (List.length new) <= 1 + 2 * max_iterations /\
    (forall res w',
       run self query max_iterations env w = Returned res w' ->
       Z.of_nat (List.length new) = 1 + 2 * Result.iterations res /\
       List.length (outputs (fun _ => true) new) = List.length new).
Proof.
  intros Hmax.
  destruct (run_trace self query max_iterations env w)
    as (new & Hex & _ & _ & _ & Hlen & Hret).
  cbv zeta in Hex, Hret. exists new.
  split; [exact Hex|]. split; [lia|].
  intros res w' Hrun. destruct (Hret res w' Hrun) as (Hn & Hall & _).
  split; assumption.
Qed.

Lemma run_request_budget_example :
  1 <= 3 /\
  exists new,
    exchanges (final (run Examples.workflow_0 "q" 3
                        (Examples.env_of (Examples.scripted Examples.always_five))
                        Examples.world_0))
    = exchanges Examples.world_0 ++ new /\
    Z.of_nat (List.length new) <= 1 + 2 * 3.
Proof.
  split; [lia|].
  destruct (run_request_budget Examples.workflow_0 "q" 3
              (Examples.env_of (Examples.scripted Examples.always_five))
              Examples.world_0 ltac:(lia)) as (new & Hex & Hlen & _).
  exists new. split; assumption.
Defined.

(** X15. The fields of a returned result agree with each other and with
    what the client said: the query is the one passed in, the critique is
    the last text the critic received, the quality score is the score read
    off that very text, the final response is the last answer of the
    synthesizer, and the log is the list of the workflow. *)
Theorem result_fields_agree self query max_iterations env w res w' :
  run self query max_iterations env w = Returned res w' ->
  exists new,
    exchanges w' = exchanges w ++ new /\
    Result.query res = query /\
    List.last (outputs is_critique new) "" = Result.critique res /\
    Result.quality_score res = extract_score (Result.critique res) /\
    List.last (outputs is_synthesize new) "" = Result.final_response res /\
    Result.interaction_log res = interaction_log self.
Proof.
  intros Hrun.
  destruct (run_trace self query max_iterations env w)
    as (new & Hex & _ & _ & _ & _ & Hret).
  destruct (run_summary self query max_iterations env w)
    as (new' & Hex' & _ & _ & _ & Hret').
  cbv zeta in Hex, Hret, Hex', Hret'.
  assert (new' = new) as -> by (rewrite Hex in Hex'; now apply app_inv_head in Hex').
  destruct (Hret res w' Hrun) as (_ & _ & Hquery & Hscore & Hcrit & _).
  destruct (Hret' res w' Hrun) as (_ & _ & _ & _ & _ & _ & Hfinal & Hlog & _).
  rewrite Hrun in Hex. cbn [final] in Hex.
  exists new. repeat match goal with |- _ /\ _ => split end; assumption.
Qed.

Lemma result_fields_agree_example :
  exists res w',
    run Examples.workflow_0 "q" 2
      (Examples.env_of (Examples.scripted Examples.five_then_eight))
      Examples.world_0
    = Returned res w' /\
    Result.query res = "q" /\
    Result.quality_score res = extract_score (Result.critique res).
Proof.
  destruct (run Examples.workflow_0 "q" 2
              (Examples.env_of (Examples.scripted Examples.five_then_eight))
              Examples.world_0) as [res w'|e w'|w'] eqn:Hrun;
    [|vm_compute in Hrun; discriminate..].
  exists res, w'. split; [reflexivity|].
  destruct (result_fields_agree _ _ _ _ _ _ _ Hrun)
    as (new & _ & Hquery & _ & Hscore & _).
  split; assumption.
Defined.

(** X16. The entries of a call that raises stay in the log.  On every way
    out, [run] has appended one entry for each of its first three requests
    that was answered, and nothing else. *)
Theorem failed_run_keeps_entries self query max_iterations env w :
  exists new added,
    exchanges (final (run self query max_iterations env w)) = exchanges w ++ new /\
    log_at (interaction_log self) (final (run self query max_iterations env w))
    = log_at (interaction_log self) w ++ added /\
    List.length added = Nat.min 3 (List.length (outputs (fun _ => true) new)).
Proof.
  destruct (run_trace self query max_iterations env w)
    as (new & Hex & _ & _ & (added & Hlog & Hlen) & _).
  cbv zeta in Hex, Hlog. exists new, added.
  repeat split; assumption.
Qed.

Lemma failed_run_keeps_entries_example :
  exists w',
    run Examples.workflow_0 "q" 2 (Examples.env_of Cases.synthesis_down)
      Examples.world_0
    = Raised TimeoutError w' /\
    List.length (log_at (interaction_log Examples.workflow_0) w') = 1%nat.
Proof.
  destruct (failed_run_keeps_entries Examples.workflow_0 "q" 2
              (Examples.env_of Cases.synthesis_down) Examples.world_0)
    as (new & added & Hex & Hlog & Hlen).
  destruct (run Examples.workflow_0 "q" 2 (Examples.env_of Cases.synthesis_down)
              Examples.world_0) as [res w'|e w'|w'] eqn:Hrun;
    [vm_compute in Hrun; discriminate | | vm_compute in Hrun; discriminate].
  cbn [final] in Hex, Hlog.
  assert (He : e = TimeoutError).
  { vm_compute in Hrun. now injection Hrun as <- _. }
  subst e. exists w'. split; [reflexivity|].
  rewrite Hlog, List.length_app, Hlen.
  assert (Hw : exchanges w' = exchanges (final (run Examples.workflow_0 "q" 2
                 (Examples.env_of Cases.synthesis_down) Examples.world_0)))
    by now rewrite Hrun.
  rewrite Hex in Hw. vm_compute in Hw. subst new. reflexivity.
Defined.

(** X17. What the synthesizer is given in a call that returns: first what
    the retriever found, and then, at each refinement, its first answer
    followed by the text of the latest critique.  The critique that ends
    the loop is not passed on. *)
Theorem refinements_rework_first_answer self query max_iterations env w res w' :
  run self query max_iterations env w = Returned res w' ->
  exists new info answer,
    exchanges w' = exchanges w ++ new /\
    outputs is_search new = [info] /\
    List.head (outputs is_synthesize new) = Some answer /\
    synthesize_inputs new
    = info :: map (fun text => refinement_prompt answer (critique_result text))
                (removelast (outputs is_critique new)).
Proof.
  intros Hrun.
  destruct (run_trace self query max_iterations env w)
    as (new & Hex & _ & _ & _ & _ & Hret).
  cbv zeta in Hex, Hret.
  destruct (Hret res w' Hrun) as (_ & _ & _ & _ & _ & info & answer & Hs & Ha & Hin).
  rewrite Hrun in Hex. cbn [final] in Hex.
  exists new, info, answer. repeat split; assumption.
Qed.

Lemma refinements_rework_first_answer_example :
  exists res w' new,
    run Examples.workflow_0 "q" 3
      (Examples.env_of (Examples.scripted Examples.always_five))
      Examples.world_0
    = Returned res w' /\
    exchanges w' = exchanges Examples.world_0 ++ new /\
    List.length (synthesize_inputs new)
    = S (List.length (removelast (outputs is_critique new))).
Proof.
  destruct (run Examples.workflow_0 "q" 3
              (Examples.env_of (Examples.scripted Examples.always_five))
              Examples.world_0) as [res w'|e w'|w'] eqn:Hrun;
    [|vm_compute in Hrun; discriminate..].
  destruct (refinements_rework_first_answer _ _ _ _ _ _ _ Hrun)
    as (new & info & answer & Hex & _ & _ & Hin).
  exists res, w', new. split; [reflexivity|]. split; [exact Hex|].
  rewrite Hin. cbn [List.length]. now rewrite List.length_map.
Defined.

(** X18. Let the client always answer, and let its answer to the first
    request of the critic in this run score 7 or more.  Then [run] returns
    after one iteration whatever the cap: three requests were made, and the
    final response is the first and only answer of the synthesizer. *)
Theorem good_first_score_ends_run self query max_iterations env w :
  (forall t r, exists text, llm env t r = Content text) ->
  (forall t r text,
     llm env t r = Content text ->
     is_critique (mkExchange r (Content text)) = true ->
     count_calls is_critique t = count_calls is_critique (exchanges w) ->
     7 <= extract_score text) ->
  exists res w' new answer,
    run self query max_iterations env w = Returned res w' /\
    exchanges w' = exchanges w ++ new /\
    List.length new = 3%nat /\
    outputs is_synthesize new = [answer] /\
    Result.iterations res = 1 /\
    Result.final_response res = answer /\
    7 <= Result.quality_score res.
Proof.
  intros Hanswers Hfirst.
  pose proof (run_cases self query max_iterations env w) as Hrun.
  cbv zeta in Hrun.
  set (rq1 := request (retriever self) (CallSearch query) _) in *.
  destruct (Hanswers (exchanges w) rq1) as [info H1]. rewrite H1 in Hrun.
  set (w1 := store_log _ _ _) in Hrun.
  set (rq2 := request (synthesizer self) (CallSynthesize query info) _) in *.
  destruct (Hanswers (exchanges w1) rq2) as [s1 H2]. rewrite H2 in Hrun.
  set (w2 := store_log _ _ _) in Hrun.
  set (rq3 := request (critic self) (CallCritique query s1) _) in *.
  destruct (Hanswers (exchanges w2) rq3) as [c1 H3]. rewrite H3 in Hrun.
  set (w3 := store_log _ _ _) in Hrun.
  assert (Hs1 : 7 <= extract_score c1).
  { apply (Hfirst (exchanges w2) rq3 c1 H3); [reflexivity|].
    unfold w2, w1. cbn [exchanges store_log record_exchange tick].
    rewrite !count_calls_app. count_arith. }
  set (st0 := {| current_response := s1; critique := critique_result c1;
                 iterations := 1 |}) in Hrun.
  assert (Hc0 : loop_cond max_iterations st0 = false).
  { apply loop_cond_false. left. exact Hs1. }
  assert (Hloop : while (loop_fuel max_iterations) (loop_cond max_iterations)
                    (loop_body self query s1) st0 env w3 = Returned st0 w3).
  { destruct (loop_fuel max_iterations); cbn [while]; now rewrite Hc0. }
  rewrite Hloop in Hrun.
  eexists _, _,
    [mkExchange rq1 (Content info); mkExchange rq2 (Content s1);
     mkExchange rq3 (Content c1)], s1.
  split; [exact Hrun|].
  repeat match goal with |- _ /\ _ => split end; try reflexivity.
  - unfold w3, w2, w1. cbn. now rewrite <- !app_assoc.
  - exact Hs1.
Qed.

Lemma good_first_score_ends_run_example :
  exists res w',
    run Examples.workflow_0 "q" 5
      (Examples.env_of (Examples.scripted Cases.nine_first)) Examples.world_0
    = Returned res w' /\
    Result.iterations res = 1.
Proof.
  destruct (good_first_score_ends_run Examples.workflow_0 "q" 5
              (Examples.env_of (Examples.scripted Cases.nine_first))
              Examples.world_0)
    as (res & w' & new & answer & Hrun & _ & _ & _ & Hit & _).
  - intros t r. unfold Examples.env_of, Examples.scripted. cbn [llm].
    destruct (req_call r); eexists; reflexivity.
  - intros t r text Hreply Hcritic Hcount.
    unfold Examples.env_of, Examples.scripted in Hreply. cbn [llm] in Hreply.
    unfold is_critique in Hcritic. cbn in Hcritic.
    destruct (req_call r); try discriminate.
    rewrite Hcount in Hreply. injection Hreply as <-. vm_compute. discriminate.
  - exists res, w'. split; assumption.
Defined.

(** X19. A cap of one or less, zero and negative caps included, still buys
    one full iteration: at most three requests, one of them to the critic,
    and, when [run] returns, exactly three requests and one iteration. *)
Theorem cap_of_one_or_less self query max_iterations env w :
  max_iterations <= 1 ->
  exists new,
    exchanges (final (run self query max_iterations env w)) = exchanges w ++ new /\
    (List.length new <= 3)%nat /\
    (count_calls is_critique new <= 1)%nat /\
    (forall res w',
       run self query max_iterations env w = Returned res w' ->
       Result.iterations res = 1 /\ List.length new = 3%nat).
Proof.
  intros Hmax.
  destruct (run_trace self query max_iterations env w)
    as (new & Hex & _ & _ & _ & Hlen & Hret).
  destruct (run_summary self query max_iterations env w)
    as (new' & Hex' & Hcount & _ & _ & Hret').
  cbv zeta in Hex, Hret, Hex', Hret'.
  assert (new' = new) as -> by (rewrite Hex in Hex'; now apply app_inv_head in Hex').
  exists new. split; [exact Hex|]. split; [lia|]. split; [lia|].
  intros res w' Hrun.
  destruct (Hret res w' Hrun) as (Hn & _).
  destruct (Hret' res w' Hrun) as ((earlier & Hscores & _) & Hit & _ & _ & Hcap & _).
  assert (Hpos : (1 <= List.length (observed_scores new))%nat).
  { rewrite Hscores, List.length_app. simpl. lia. }
  split; lia.
Qed.

Lemma cap_of_one_or_less_example :
  0 <= 1 /\
  exists new,
    exchanges (final (run Examples.workflow_0 "q" 0
                        (Examples.env_of (Examples.scripted Examples.always_five))
                        Examples.world_0))
    = exchanges Examples.world_0 ++ new /\
    (count_calls is_critique new <= 1)%nat.
Proof.
  split; [lia|].
  destruct (cap_of_one_or_less Examples.workflow_0 "q" 0
              (Examples.env_of (Examples.scripted Examples.always_five))
              Examples.world_0 ltac:(lia)) as (new & Hex & _ & Hcount & _).
  exists new. split; assumption.
Defined.

(** X20. [run_simple] is a run with a cap of two that keeps the final
    response only: it sends at most five requests, at most two of them to
    the critic, raises exactly the failure that [run] raises, and returns
    the last answer of the synthesizer. *)
Theorem run_simple_budget self query env w :
  exists new,
    exchanges (final (run_simple self query env w)) = exchanges w ++ new /\
    (List.length new <= 5)%nat /\
    (count_calls is_critique new <= 2)%nat /\
    (forall w', run_simple self query env w <> Unfinished w') /\
    (forall e w',
       run_simple self query env w = Raised e w' <->
       run self query 2 env w = Raised e w') /\
    (forall answer w',
       run_simple self query env w = Returned answer w' ->
       List.last (outputs is_synthesize new) "" = answer).
Proof.
  destruct (run_trace self query 2 env w) as (new & Hex & _ & _ & _ & Hlen & _).
  destruct (run_summary self query 2 env w)
    as (new' & Hex' & Hcount & Hfin & _ & Hret').
  cbv zeta in Hex, Hex', Hfin, Hret'.
  assert (new' = new) as -> by (rewrite Hex in Hex'; now apply app_inv_head in Hex').
  exists new. unfold run_simple, bind, ret.
  destruct (run self query 2 env w) as [res w1|e w1|w1] eqn:Hrun; cbn [final] in *.
  - repeat match goal with |- _ /\ _ => split end;
      try assumption; try lia; try congruence;
      try (intros; split; congruence).
    intros answer w' [= <- <-].
    now destruct (Hret' res w1 eq_refl) as (_ & _ & _ & _ & _ & _ & Hfinal & _).
  - repeat match goal with |- _ /\ _ => split end;
      try assumption; try lia; try congruence;
      intros; split; congruence.
  - exfalso. now apply (Hfin w1).
Qed.

Lemma length_append (a b : string) :
  String.length (a +:+ b) = (String.length a + String.length b)%nat.
Proof.
  induction a as [|c a IH]; [reflexivity|].
  rewrite append_cons. cbn [String.length]. now rewrite IH.
Qed.

Lemma length_slice_to (n : nat) (s : string) :
  (n <= String.length s)%nat -> String.length (str_slice_to n s) = n.
Proof.
  unfold str_slice_to. revert s.
  induction n as [|n IH]; intros [|c s] Hn; cbn [String.length] in *;
    try lia; try reflexivity.
  cbn [String.substring String.length]. now rewrite IH by lia.
Qed.

(** X21. The preview stored in the log is never longer than 203
    characters, keeps a text of at most 200 characters whole, agrees with
    the text on its first 200 characters, and is left as it is by a second
    cut. *)
Theorem preview_bounded (s : string) :
  (String.length (preview s) <= 203)%nat /\
  ((String.length s <= 200)%nat -> preview s = s) /\
  str_slice_to 200 (preview s) = str_slice_to 200 s /\
  preview (preview s) = preview s.
Proof.
  assert (Hcut : forall t, (200 < String.length t)%nat ->
                           preview t = str_slice_to 200 t +:+ "...").
  { intros t Ht. unfold preview, len.
    destruct (Z.gtb_spec (Z.of_nat (String.length t)) 200); [reflexivity | lia]. }
  assert (Hkeep : forall t, (String.length t <= 200)%nat -> preview t = t).
  { intros t Ht. unfold preview, len.
    destruct (Z.gtb_spec (Z.of_nat (String.length t)) 200); [lia | reflexivity]. }
  destruct (Nat.le_gt_cases (String.length s) 200) as [Hle|Hgt].
  - rewrite (Hkeep s Hle). repeat split; auto; lia.
  - rewrite (Hcut s Hgt).
    assert (Hlen : String.length (str_slice_to 200 s) = 200%nat)
      by (apply length_slice_to; lia).
    assert (Hslice : str_slice_to 200 (str_slice_to 200 s +:+ "...")
                     = str_slice_to 200 s).
    { rewrite slice_to_app by lia. rewrite Hlen, Nat.sub_diag.
      rewrite slice_to_zero. apply append_empty_r. }
    repeat split.
    + rewrite length_append, Hlen. cbn [String.length]. lia.
    + intros Hle. lia.
    + exact Hslice.
    + rewrite Hcut; [now rewrite Hslice|].
      rewrite length_append, Hlen. cbn [String.length]. lia.
Qed.

(** The requests that the results of a series of runs account for. *)
Lemma run_each_trace self :
  forall queries env w,
    exists new,
      let o := Demo.run_each self queries env w in
      exchanges (final o) = exchanges w ++ new /\
      histories (final o) = histories w /\
      Z.of_nat (List.length new) <= 5 * Z.of_nat (List.length queries) /\
      (forall w', o <> Unfinished w') /\
      (forall results w', o = Returned results w' ->
         map Result.query results = queries /\
         Forall (fun r => Result.interaction_log r = interaction_log self) results /\
         Z.of_nat (List.length new)
         = fold_right (fun r total => 1 + 2 * Result.iterations r + total) 0 results /\
         exists added,
           log_at (interaction_log self) w'
           = log_at (interaction_log self) w ++ added /\
           List.length added = (3 * List.length queries)%nat).
Proof.
  induction queries as [|query rest IH]; intros env w.
  - exists []. cbn [Demo.run_each]. unfold ret. cbn [final].
    rewrite app_nil_r.
    repeat match goal with |- _ /\ _ => split end;
      [reflexivity | reflexivity | cbn; lia | congruence |].
    intros results w' [= <- <-].
    repeat match goal with |- _ /\ _ => split end;
      [reflexivity | constructor | reflexivity |].
    exists []. now rewrite app_nil_r.
  - assert (Hstep :
      Demo.run_each self (query :: rest) env w
      = match run self query 2 env w with
        | Returned res w1 =>
            match Demo.run_each self rest env w1 with
            | Returned results w2 => Returned (res :: results) w2
            | Raised e w2 => Raised e w2
            | Unfinished w2 => Unfinished w2
            end
        | Raised e w1 => Raised e w1
        | Unfinished w1 => Unfinished w1
        end) by reflexivity.
    destruct (run_trace self query 2 env w)
      as (new1 & Hex1 & Hhist1 & _ & _ & Hlen1 & Hret1).
    destruct (run_summary self query 2 env w)
      as (new1' & Hex1' & _ & Hfin1 & _ & Hsum1).
    cbv zeta in Hex1, Hhist1, Hret1, Hex1', Hfin1, Hsum1.
    assert (new1' = new1) as ->
      by (rewrite Hex1 in Hex1'; now apply app_inv_head in Hex1').
    clear Hex1'.
    destruct (run self query 2 env w) as [res w1|e w1|w1] eqn:Hrun;
      cbn [final] in *.
    + destruct (Hret1 res w1 eq_refl) as (Hn1 & _ & Hq1 & _).
      destruct (Hsum1 res w1 eq_refl)
        as (_ & _ & _ & _ & _ & _ & _ & Hl1 & i1 & a1 & t1 & _ & _ & _ & Hlog1).
      destruct (IH env w1) as (new2 & Hex2 & Hhist2 & Hlen2 & Hfin2 & Hret2).
      cbv zeta in Hex2, Hhist2, Hfin2, Hret2.
      exists (new1 ++ new2). cbv zeta. rewrite Hstep.
      destruct (Demo.run_each self rest env w1) as [results w2|e w2|w2] eqn:Heach;
        cbn [final] in *.
      * repeat match goal with |- _ /\ _ => split end.
        -- rewrite Hex2, Hex1. now rewrite app_assoc.
        -- rewrite Hhist2. exact Hhist1.
        -- rewrite List.length_app. cbn [List.length]. lia.
        -- congruence.
        -- intros results' w' [= <- <-].
           destruct (Hret2 results w2 eq_refl)
             as (Hqs & Hlogs & Hn2 & added & Hlog2 & Hadded).
           repeat match goal with |- _ /\ _ => split end.
           ++ cbn [map]. now rewrite Hq1, Hqs.
           ++ constructor; assumption.
           ++ rewrite List.length_app. cbn [fold_right]. lia.
           ++ eexists. split.
              ** rewrite Hlog2, Hlog1. rewrite <- app_assoc. reflexivity.
              ** rewrite List.length_app, Hadded. cbn [List.length]. lia.
      * repeat match goal with |- _ /\ _ => split end.
        -- rewrite Hex2, Hex1. now rewrite app_assoc.
        -- rewrite Hhist2. exact Hhist1.
        -- rewrite List.length_app. cbn [List.length]. lia.
        -- congruence.
        -- congruence.
      * exfalso. now apply (Hfin2 w2).
    + exists new1. cbv zeta. rewrite Hstep. cbn [final].
      repeat match goal with |- _ /\ _ => split end;
        [assumption | assumption | cbn [List.length]; lia | congruence | congruence].
    + exfalso. now apply (Hfin1 w1).
Qed.

(** X22. A series of runs on one workflow, as [demo_simple] makes them.
    When all have returned, there is one result per query, in order; every
    result points at the one log of the workflow, which has grown by three
    entries per query; no history was touched; and the requests sent are
    those the results account for, one plus two per iteration, never more
    than five per query. *)
Theorem run_each_fills_one_log self queries env w results w' :
  Demo.run_each self queries env w = Returned results w' ->
  map Result.query results = queries /\
  Forall (fun r => Result.interaction_log r = interaction_log self) results /\
  List.length (log_at (interaction_log self) w')
  = (List.length (log_at (interaction_log self) w) + 3 * List.length queries)%nat /\
  histories w' = histories w /\
  exists new,
    exchanges w' = exchanges w ++ new /\
    Z.of_nat (List.length new)
    = fold_right (fun r total => 1 + 2 * Result.iterations r + total) 0 results /\
    Z.of_nat (List.length new) <= 5 * Z.of_nat (List.length queries).
Proof.
  intros Hrun.
  destruct (run_each_trace self queries env w)
    as (new & Hex & Hhist & Hlen & _ & Hret).
  cbv zeta in Hex, Hhist, Hret. rewrite Hrun in Hex, Hhist. cbn [final] in *.
  destruct (Hret results w' Hrun) as (Hqs & Hlogs & Hn & added & Hlog & Hadded).
  repeat match goal with |- _ /\ _ => split end; try assumption.
  - rewrite Hlog, List.length_app, Hadded. reflexivity.
  - exists new. repeat split; assumption.
Qed.

Lemma run_each_fills_one_log_example :
  exists results w',
    Demo.run_each Examples.workflow_0 ["a"; "b"]
      (Examples.env_of (Examples.scripted Examples.five_then_eight))
      Examples.world_0
    = Returned results w' /\
    map Result.query results = ["a"; "b"] /\
    List.length (log_at (interaction_log Examples.workflow_0) w') = 6%nat.
Proof.
  destruct (Demo.run_each Examples.workflow_0 ["a"; "b"]
              (Examples.env_of (Examples.scripted Examples.five_then_eight))
              Examples.world_0) as [results w'|e w'|w'] eqn:Hrun;
    [|vm_compute in Hrun; discriminate..].
  exists results, w'. split; [reflexivity|].
  destruct (run_each_fills_one_log _ _ _ _ _ _ Hrun) as (Hqs & _ & Hlog & _).
  split; [exact Hqs | exact Hlog].
Defined.

Lemma workflow_init_log model env w :
  exists workflow start,
    MultiAgentWorkflow_init model env w = Returned workflow start /\
    log_at (interaction_log workflow) start = [] /\
    (interaction_log workflow ∉ dom (logs w)) /\
    exchanges start = exchanges w.
Proof.
  unfold MultiAgentWorkflow_init, RetrieverAgent_init, SynthesizerAgent_init,
    CriticAgent_init.
  rewrite (bind_returned _ _ _ _ _ _ (BaseAgent_init_returns _ _ _ _ _)).
  rewrite (bind_returned _ _ _ _ _ _ (BaseAgent_init_returns _ _ _ _ _)).
  rewrite (bind_returned _ _ _ _ _ _ (BaseAgent_init_returns _ _ _ _ _)).
  unfold bind, new_log, ret. do 2 eexists. split; [reflexivity|].
  cbn [interaction_log]. split; [apply log_at_store|].
  split; [apply is_fresh | reflexivity].
Qed.

(** X23. [demo_simple] builds one workflow and runs its three queries on
    it.  It never sends more than fifteen requests; when it gets to the
    end, its three results, one per query and in order, all point at the
    same list, created by this call, which then holds nine entries. *)
Theorem demo_simple_shares_one_log env w :
  exists new,
    exchanges (final (Demo.demo_simple env w)) = exchanges w ++ new /\
    (List.length new <= 15)%nat /\
    (forall w', Demo.demo_simple env w <> Unfinished w') /\
    (forall results w',
       Demo.demo_simple env w = Returned results w' ->
       map Result.query results = Demo.queries /\
       exists log,
         (log ∉ dom (logs w)) /\
         Forall (fun r => Result.interaction_log r = log) results /\
         List.length (log_at log w') = 9%nat).
Proof.
  destruct (workflow_init_log None env w)
    as (workflow & start & Hinit & Hlog0 & Hfresh & Hstart).
  unfold Demo.demo_simple. rewrite (bind_returned _ _ _ _ _ _ Hinit).
  destruct (run_each_trace workflow Demo.queries env start)
    as (new & Hex & _ & Hlen & Hfin & Hret).
  cbv zeta in Hex, Hfin, Hret. rewrite Hstart in Hex.
  exists new. repeat match goal with |- _ /\ _ => split end.
  - exact Hex.
  - cbn [Demo.queries List.length] in Hlen. lia.
  - exact Hfin.
  - intros results w' Hrun.
    destruct (Hret results w' Hrun) as (Hqs & Hlogs & _ & added & Hlog & Hadded).
    split; [exact Hqs|].
    exists (interaction_log workflow). split; [exact Hfresh|].
    split; [exact Hlogs|].
    rewrite Hlog, Hlog0. cbn [app]. rewrite Hadded. reflexivity.
Qed.

End RunFacts.

(** ** The evaluation helpers *)

Section EvaluateFacts.
Import Py Evaluate.

Lemma split_from_separator (c : ascii) (b : string) :
  isspace c = true ->
  forall a word,
    split_from word (a +:+ String c b) = split_from word a ++ split b.
Proof.
  intros Hc. induction a as [|d a IH]; intros word.
  - change ("" +:+ String c b) with (String c b).
    cbn [split_from]. rewrite Hc. destruct word; reflexivity.
  - change (String d a +:+ String c b) with (String d (a +:+ String c b)).
    cbn [split_from]. destruct (isspace d).
    + destruct word; rewrite IH; reflexivity.
    + apply IH.
Qed.

Lemma split_from_nil (s : string) :
  forall word,
    split_from word s = [] <->
    word = "" /\ forallb isspace (list_ascii_of_string s) = true.
Proof.
  induction s as [|c s IH]; intros word.
  - cbn [split_from list_ascii_of_string forallb].
    destruct word; split;
      [ intros _; split; reflexivity | reflexivity
      | discriminate | intros [H _]; discriminate ].
  - cbn [split_from list_ascii_of_string forallb].
    destruct (isspace c) eqn:Hc; cbn [andb].
    + destruct word as [|d word].
      * apply IH.
      * split; intros H; [discriminate | destruct H; discriminate].
    + rewrite IH. split; intros [H1 H2]; [|discriminate].
      destruct word; discriminate.
Qed.

(** X24. The word count of a response is zero exactly when the response is
    blank: empty, or made of white space only. *)
Theorem word_count_zero_iff_blank (response : string) :
  evaluate_response_length response = 0 <->
  forallb isspace (list_ascii_of_string response) = true.
Proof.
  unfold evaluate_response_length, split.
  split.
  - intros H. destruct (split_from "" response) eqn:E; [|discriminate].
    now apply split_from_nil in E as [_ E].
  - intros H. assert (E : split_from "" response = [])
      by (apply split_from_nil; auto).
    now rewrite E.
Qed.

(** X25. Word counts add up across white space: the count of two texts
    joined by a white-space character is the sum of their counts. *)
Theorem word_count_adds (c : ascii) (a b : string) :
  isspace c = true ->
  evaluate_response_length (a +:+ String c b)
  = evaluate_response_length a + evaluate_response_length b.
Proof.
  intros Hc. unfold evaluate_response_length, split.
  rewrite (split_from_separator c b Hc a ""), List.length_app.
  apply Nat2Z.inj_add.
Qed.

Lemma word_count_adds_example :
  isspace "010"%char = true /\
  evaluate_response_length ("two words" +:+ String "010"%char "and three more")
  = 2 + 3.
Proof.
  split; [reflexivity|].
  rewrite (word_count_adds "010"%char "two words" "and three more" eq_refl).
  reflexivity.
Defined.

End EvaluateFacts.

(** ** The two views of a history *)

Section ViewFacts.
Import Py Messages.

(** X26. The context view and [get_recent_messages] agree: what the view
    renders, below its header, is the list that [get_recent_messages]
    returns for ten. *)
Theorem context_view_shows_recent_ten (h : MessageHistory) :
  get_conversation_context h =
  match messages h with
  | [] => "No previous conversation."
  | _ => "Previous conversation:" +:+ nl
           +:+ transcript_lines (get_recent_messages h 10)
  end.
Proof.
  rewrite context_of_messages, get_recent_messages_slice. reflexivity.
Qed.

End ViewFacts.
